(** * mlpack GAN engine and Frechet distance: a shallow embedding

    Sources embedded here:
    - [src/mlpack/methods/ann/gan/gan_impl.hpp]  (class [GAN]:  [ResetData],
      [Reset], [Evaluate], [EvaluateWithGradient], [Gradient], [Shuffle],
      [Forward], [Predict], [ResetDeterministic], [serialize] and the
      constructor);
    - [src/mlpack/methods/ann/gan/metrics/frechet_distance.hpp]
      (class [FrechetDistance]: [Evaluate]).

    Conventions.
    - [double] is idealised as a real number ([R]).
    - [size_t] is a natural number ([N]); every arithmetic step the code does
      on it is written with its 64-bit wrap-around ([SizeT.wrap]).
    - A call that throws (Armadillo's bounds and shape checks) or that leaves
      defined behaviour (division by zero, a raw view that leaves its
      buffer) is a fault: the model returns [None].
    - Armadillo matrices are column-major; a matrix is the list of its
      columns.
    - The feed-forward network class, the initialisation rule, the noise
      functor and the random number generator are collaborators of the
      engine that live outside these two files: the engine is written
      against an interface ([Layers], [Collaborators]). *)

From Stdlib Require Import List NArith ZArith Bool Lia Permutation.
From Stdlib Require Import Reals Lra Psatz.
Import ListNotations.

(* ================================================================= *)
(** ** Faults *)

Definition bind {A B : Type} (c : option A) (k : A -> option B) : option B :=
  match c with
  | Some a => k a
  | None => None
  end.

Definition guard (b : bool) : option unit :=
  if b then Some tt else None.

Declare Scope fault_scope.
Delimit Scope fault_scope with fault.

Notation "x <- c ;; k" := (bind c (fun x => k))
  (at level 61, c at next level, right associativity) : fault_scope.
Notation "' p <- c ;; k" := (bind c (fun x => match x with p => k end))
  (at level 61, p pattern, c at next level, right associativity) : fault_scope.
Notation "'ensure' b ;; k" := (bind (guard b) (fun _ => k))
  (at level 61, b at next level, right associativity) : fault_scope.

(* ================================================================= *)
(** ** [size_t] *)

Module SizeT.

Definition modulus : N := 2 ^ 64.
Definition size_max : N := modulus - 1.

Definition wrap (n : N) : N := n mod modulus.

(** [a + b], [a - b], [a++] and [a % b] on [size_t]. *)
Definition add (a b : N) : N := wrap (a + b).
Definition sub (a b : N) : N := wrap (a + (modulus - wrap b)).
Definition incr (a : N) : N := add a 1.
Definition rem (a b : N) : option N :=
  if (b =? 0)%N then None else Some (a mod b)%N.

End SizeT.

(* ================================================================= *)
(** ** Armadillo: the operations the two files use *)

Module Arma.

Open Scope R_scope.

(** A matrix is the list of its columns (column-major storage). *)
Definition mat : Type := list (list R).

Definition n_cols (m : mat) : nat := length m.
Definition n_rows (m : mat) : nat := length (hd [] m).
Definition n_elem (m : mat) : nat := (n_rows m * n_cols m)%nat.

Definition is_empty {A : Type} (l : list A) : bool :=
  match l with [] => true | _ :: _ => false end.

(** [zeros<mat>(n, 1)] and [v.zeros()], for column vectors. *)
Definition zeros (n : nat) : list R := repeat 0 n.

(** [M.set_size(r, c); M.fill(x)]. *)
Definition filled (r c : nat) (x : R) : mat := repeat (repeat x r) c.

(** A column range is legal when [first <= last < n_cols]; the number of
    columns of a matrix is itself a [uword], at most [size_max]. *)
Definition cols_in_range (first last : N) (m : mat) : bool :=
  (first <=? last)%N && (last <? N.of_nat (n_cols m))%N
  && (N.of_nat (n_cols m) <=? SizeT.size_max)%N.

Definition same_rows (r : nat) (x : mat) : bool :=
  forallb (fun c => Nat.eqb (length c) r) x.

(** [M.cols(first, last)] read. *)
Definition cols (first last : N) (m : mat) : option mat :=
  if cols_in_range first last m
  then Some (firstn (N.to_nat (last - first + 1)) (skipn (N.to_nat first) m))
  else None.

(** [M.cols(first, last) = X]: throws unless the range is legal and [X]
    has the shape of the range. *)
Definition set_cols (first last : N) (x m : mat) : option mat :=
  if cols_in_range first last m
     && (N.of_nat (n_cols x) =? last - first + 1)%N
     && same_rows (n_rows m) x
  then Some (firstn (N.to_nat first) m ++ x
             ++ skipn (N.to_nat first + n_cols x) m)
  else None.

(** [M.cols(indices)], [indices] a [uvec]: throws on an index past the
    last column. *)
Fixpoint cols_at (indices : list N) (m : mat) : option mat :=
  match indices with
  | [] => Some []
  | i :: rest =>
      match nth_error m (N.to_nat i), cols_at rest m with
      | Some c, Some cs => Some (c :: cs)
      | _, _ => None
      end
  end.

(** [join_rows(A, B)]: horizontal concatenation. *)
Definition join_rows (a b : mat) : option mat :=
  if is_empty a || is_empty b || Nat.eqb (n_rows a) (n_rows b)
  then Some (a ++ b) else None.

(** [linspace<uvec>(0, n - 1, n)]: the [n] indices [0 .. n-1]. *)
Definition linspace_from_0 (n : N) : list N :=
  map N.of_nat (seq 0 (N.to_nat n)).

(** [mat(ptr + offset * n_rows, n_rows, count, false, false)]: a raw
    window of [count] columns starting at column [offset]; nothing is
    checked, a window that leaves the buffer is undefined behaviour. *)
Definition raw_window (offset count : N) (m : mat) : option mat :=
  if (offset + count <=? N.of_nat (n_cols m))%N
  then Some (firstn (N.to_nat count) (skipn (N.to_nat offset) m))
  else None.

(** *** Views into a buffer

    [mat(ptr + offset, n_elem, 1, false, false)]: a column vector that
    owns no memory and aliases [n_elem] entries of another buffer. *)

Record view : Type := { offset : N; view_n_elem : N }.

Definition empty_view : view := {| offset := 0; view_n_elem := 0 |}.

Definition view_fits (v : view) (buf : list R) : bool :=
  (offset v + view_n_elem v <=? N.of_nat (length buf))%N.

Definition view_get (v : view) (buf : list R) : list R :=
  firstn (N.to_nat (view_n_elem v)) (skipn (N.to_nat (offset v)) buf).

(** Writing [new] over [old] in place: [old] keeps its length, entries
    past the end of [new] keep their value. *)
Fixpoint overlay (old new : list R) : list R :=
  match old, new with
  | [], _ => []
  | _ :: _, [] => old
  | _ :: old', x :: new' => x :: overlay old' new'
  end.

(** Writing through a view reaches the entries the view aliases and no
    other. *)
Definition view_set (v : view) (data buf : list R) : list R :=
  firstn (N.to_nat (offset v)) buf
  ++ overlay (view_get v buf) data
  ++ skipn (N.to_nat (offset v) + N.to_nat (view_n_elem v)) buf.

(** *** Dense linear algebra of the metric *)

Definition Rsum (l : list R) : R := fold_right Rplus 0 l.

Definition row (i : nat) (m : mat) : list R := map (fun c => nth i c 0) m.
Definition rows (m : mat) : list (list R) :=
  map (fun i => row i m) (seq 0 (n_rows m)).

(** [trans(M)]: the rows become the columns. *)
Definition trans (m : mat) : mat := rows m.

Definition dot (u v : list R) : R := Rsum (map (fun p => fst p * snd p) (combine u v)).

(** [A * B]. *)
Definition mmul (a b : mat) : mat :=
  map (fun bc => map (fun ar => dot ar bc) (rows a)) b.

Definition madd (a b : mat) : mat :=
  map (fun p => map (fun q => fst q + snd q) (combine (fst p) (snd p))) (combine a b).
Definition msub (a b : mat) : mat :=
  map (fun p => map (fun q => fst q - snd q) (combine (fst p) (snd p))) (combine a b).
Definition mscale (k : R) (a : mat) : mat := map (map (Rmult k)) a.
Definition mdiv (a : mat) (k : R) : mat := map (map (fun x => x / k)) a.

(** [mean(M, 1)]: the mean of each row, a column vector. *)
Definition mean_rows (m : mat) : list R :=
  map (fun r => Rsum r / INR (n_cols m)) (rows m).

(** [sum(M)] (dimension 0): the sum of each column, a row vector. *)
Definition sum_cols (m : mat) : list R := map Rsum m.

(** [norm(v, 2)]. *)
Definition norm2 (v : list R) : R := sqrt (Rsum (map (fun x => x * x) v)).

(** [trace(M)]: the sum of the main diagonal. *)
Definition diag (m : mat) : list R :=
  map (fun p => nth (fst p) (snd p) 0) (combine (seq 0 (n_cols m)) m).
Definition trace (m : mat) : R := Rsum (diag m).

(** [arma::sqrt(M)]: the square root of every element.  Of a negative
    element [arma::sqrt] gives no number (NaN) and [sqrt] gives 0: the
    model is the code on the elements that are not negative. *)
Definition sqrt_elem (m : mat) : mat := map (map sqrt) m.

(** [var(v)] with the default normalisation ([N - 1], or [1] for a single
    observation). *)
Definition norm_val (n : nat) : R := if (1 <? n)%nat then INR (n - 1) else 1.

Definition var (v : list R) : R :=
  let mu := Rsum v / INR (length v) in
  Rsum (map (fun x => (x - mu) * (x - mu)) v) / norm_val (length v).

(** [cov(A)]: the rows of [A] are observations, its columns variables;
    a vector argument is one variable observed [n_elem] times. *)
Definition cov (a : mat) : mat :=
  if Nat.eqb (n_rows a) 1 then [[var (row 0 a)]]
  else if Nat.eqb (n_cols a) 1 then [[var (hd [] a)]]
  else
    let n := n_rows a in
    let acc : mat := map (fun s => [s]) (sum_cols a) in
    mdiv (msub (mmul (trans a) a) (mdiv (mmul (trans acc) acc) (INR n)))
         (norm_val n).

End Arma.

(* ================================================================= *)
(** ** [FrechetDistance]  (frechet_distance.hpp) *)

Module FrechetDistance.

Import Arma.
Open Scope R_scope.

(** [double Evaluate(arma::mat p, arma::mat pw)]. *)
Definition Evaluate (p pw : mat) : R :=
  let firstTerm := norm2 (map (fun q => fst q - snd q)
                              (combine (mean_rows p) (mean_rows pw))) in
  let transP := trans p in
  let transPW := trans pw in
  let c := cov transP in
  let cW := cov transPW in
  let secondTerm :=
    trace (msub (madd c cW) (mscale 2 (sqrt_elem (mmul c (trans cW))))) in
  firstTerm + secondTerm.

(** The formula of the specification, for a matrix [s] standing for
    [sqrtm(Cov(P) * Cov(Q)^T)]. *)
Definition Evaluate_spec (s : mat) (p pw : mat) : R :=
  norm2 (map (fun q => fst q - snd q) (combine (mean_rows p) (mean_rows pw)))
  + trace (msub (madd (cov (trans p)) (cov (trans pw))) (mscale 2 s)).

(** [s] is a square root of [m] as a matrix: same shape, and [s * s = m]. *)
Definition is_sqrtm (s m : mat) : Prop :=
  n_cols s = n_cols m /\ Forall (fun c => length c = n_rows m) s
  /\ mmul s s = m.

(** Two samples of dimension 2: the points (0,0) and (4,3). *)
Definition two_points : mat := [[0; 0]; [4; 3]].

End FrechetDistance.

(* ================================================================= *)
(** ** The collaborators of the engine *)

Import Arma.

(** The layers of a network are a variant over layer classes; the engine
    reaches into a layer through visitors only. *)
Class Layers : Type := {
  Layer : Type;
  IdentityLayer : Layer;
  weightSizeVisitor : Layer -> N;
  outputParameterVisitor : Layer -> mat;
  deltaVisitor : Layer -> mat
}.

(** [FFN], as the engine (a friend class) sees it. *)
Module FFN.

(** What a matrix member of a sub-model is bound to: memory of its own,
    or a view of the whole of one of the engine's two data buffers. *)
Inductive binding : Type :=
| own (m : mat)
| engine_predictors
| engine_responses.

#[projections(primitive)]
Record t (L : Layers) : Type := {
  network : list Layer;
  parameter : view;          (* a view into the engine's [parameter] *)
  predictors : binding;
  responses : binding;
  deterministic : bool;
  error : mat
}.

Arguments network {L} _.
Arguments parameter {L} _.
Arguments predictors {L} _.
Arguments responses {L} _.
Arguments deterministic {L} _.
Arguments error {L} _.

Definition with_network {L : Layers} (v : list Layer) (m : t L) : t L :=
  {| network := v; parameter := parameter m; predictors := predictors m;
     responses := responses m; deterministic := deterministic m;
     error := error m |}.

Definition with_parameter {L : Layers} (v : view) (m : t L) : t L :=
  {| network := network m; parameter := v; predictors := predictors m;
     responses := responses m; deterministic := deterministic m;
     error := error m |}.

Definition with_predictors {L : Layers} (v : binding) (m : t L) : t L :=
  {| network := network m; parameter := parameter m; predictors := v;
     responses := responses m; deterministic := deterministic m;
     error := error m |}.

Definition with_responses {L : Layers} (v : binding) (m : t L) : t L :=
  {| network := network m; parameter := parameter m;
     predictors := predictors m; responses := v;
     deterministic := deterministic m; error := error m |}.

Definition with_deterministic {L : Layers} (v : bool) (m : t L) : t L :=
  {| network := network m; parameter := parameter m;
     predictors := predictors m; responses := responses m;
     deterministic := v; error := error m |}.

Definition with_error {L : Layers} (v : mat) (m : t L) : t L :=
  {| network := network m; parameter := parameter m;
     predictors := predictors m; responses := responses m;
     deterministic := deterministic m; error := v |}.

End FFN.

(** The methods of the collaborators.  A method of [FFN] works on the
    layers of its network; it is handed what it reads through the views the
    sub-model holds (its weights, its predictors and responses, the
    gradient buffer it is given) and hands back the layers and what it
    wrote into the gradient buffer.  It writes no other buffer of the
    engine and rebinds no view.  A method that can throw returns an
    [option]. *)
Class Collaborators (L : Layers) : Type := {
  (** state of the random number generator (global in the program) *)
  Rng : Type;
  (** contents of memory that was allocated and not written yet *)
  indeterminate : R;
  (** [noiseFunction()] *)
  noiseFunction : Rng -> R * Rng;
  (** [arma::shuffle(v)] *)
  arma_shuffle : Rng -> list N -> list N * Rng;
  (** [networkInit.Initialize(network, parameter, offset)]: the layers
      with their weights bound, and the values [parameter] holds
      afterwards, written in place *)
  NetworkInit_Initialize :
    Rng -> list Layer -> list R -> N -> option (list Layer * list R * Rng);
  (** [model.Forward(input)] *)
  FFN_Forward : FFN.t L -> list R -> mat -> option (list Layer);
  (** [model.outputLayer.Forward(output, target)] *)
  OutputLayer_Forward : FFN.t L -> mat -> mat -> R;
  (** [model.EvaluateWithGradient(model.parameter, begin, gradient,
      batchSize)], given weights, predictors and responses *)
  FFN_EvaluateWithGradient :
    FFN.t L -> list R -> mat -> mat -> N -> list R -> N ->
    option (list Layer * list R * R);
  (** [model.Gradient(model.parameter, begin, gradient, batchSize)] *)
  FFN_Gradient :
    FFN.t L -> list R -> mat -> mat -> N -> list R -> N ->
    option (list Layer * list R);
  (** [model.ResetGradients(gradient)] *)
  FFN_ResetGradients : FFN.t L -> list R -> list Layer * list R;
  (** [model.ResetDeterministic()] *)
  FFN_ResetDeterministic : FFN.t L -> list Layer
}.

(* ================================================================= *)
(** ** [GAN]  (gan_impl.hpp) *)

Section Engine.

Context {L : Layers} {C : Collaborators L}.

Open Scope fault_scope.
Open Scope N_scope.

#[projections(primitive)]
Record GAN : Type := {
  predictors : mat;
  responses : mat;
  generator : FFN.t L;
  discriminator : FFN.t L;
  noiseDim : N;
  numFunctions : N;
  batchSize : N;
  currentBatch : N;
  generatorUpdateStep : N;
  preTrainSize : N;
  multiplier : R;
  clippingParameter : R;
  lambda : R;
  reset : bool;
  deterministic : bool;
  parameter : list R;
  noise : mat;
  genWeights : N;
  discWeights : N;
  realLabel : R;
  fakeLabel : R;
  gradientGenerator : view;
  gradientDiscriminator : view;
  noiseGradientDiscriminator : list R;
  entropy : Rng
}.

Definition with_predictors (v : mat) (s : GAN) : GAN :=
  {| predictors := v; responses := responses s; generator := generator s;
     discriminator := discriminator s; noiseDim := noiseDim s;
     numFunctions := numFunctions s; batchSize := batchSize s;
     currentBatch := currentBatch s;
     generatorUpdateStep := generatorUpdateStep s;
     preTrainSize := preTrainSize s; multiplier := multiplier s;
     clippingParameter := clippingParameter s; lambda := lambda s;
     reset := reset s; deterministic := deterministic s;
     parameter := parameter s; noise := noise s;
     genWeights := genWeights s; discWeights := discWeights s;
     realLabel := realLabel s; fakeLabel := fakeLabel s;
     gradientGenerator := gradientGenerator s;
     gradientDiscriminator := gradientDiscriminator s;
     noiseGradientDiscriminator := noiseGradientDiscriminator s;
     entropy := entropy s |}.

Definition with_responses (v : mat) (s : GAN) : GAN :=
  {| predictors := predictors s; responses := v; generator := generator s;
     discriminator := discriminator s; noiseDim := noiseDim s;
     numFunctions := numFunctions s; batchSize := batchSize s;
     currentBatch := currentBatch s;
     generatorUpdateStep := generatorUpdateStep s;
     preTrainSize := preTrainSize s; multiplier := multiplier s;
     clippingParameter := clippingParameter s; lambda := lambda s;
     reset := reset s; deterministic := deterministic s;
     parameter := parameter s; noise := noise s;
     genWeights := genWeights s; discWeights := discWeights s;
     realLabel := realLabel s; fakeLabel := fakeLabel s;
     gradientGenerator := gradientGenerator s;
     gradientDiscriminator := gradientDiscriminator s;
     noiseGradientDiscriminator := noiseGradientDiscriminator s;
     entropy := entropy s |}.

Definition with_generator (v : FFN.t L) (s : GAN) : GAN :=
  {| predictors := predictors s; responses := responses s; generator := v;
     discriminator := discriminator s; noiseDim := noiseDim s;
     numFunctions := numFunctions s; batchSize := batchSize s;
     currentBatch := currentBatch s;
     generatorUpdateStep := generatorUpdateStep s;
     preTrainSize := preTrainSize s; multiplier := multiplier s;
     clippingParameter := clippingParameter s; lambda := lambda s;
     reset := reset s; deterministic := deterministic s;
     parameter := parameter s; noise := noise s;
     genWeights := genWeights s; discWeights := discWeights s;
     realLabel := realLabel s; fakeLabel := fakeLabel s;
     gradientGenerator := gradientGenerator s;
     gradientDiscriminator := gradientDiscriminator s;
     noiseGradientDiscriminator := noiseGradientDiscriminator s;
     entropy := entropy s |}.

Definition with_discriminator (v : FFN.t L) (s : GAN) : GAN :=
  {| predictors := predictors s; responses := responses s;
     generator := generator s; discriminator := v; noiseDim := noiseDim s;
     numFunctions := numFunctions s; batchSize := batchSize s;
     currentBatch := currentBatch s;
     generatorUpdateStep := generatorUpdateStep s;
     preTrainSize := preTrainSize s; multiplier := multiplier s;
     clippingParameter := clippingParameter s; lambda := lambda s;
     reset := reset s; deterministic := deterministic s;
     parameter := parameter s; noise := noise s;
     genWeights := genWeights s; discWeights := discWeights s;
     realLabel := realLabel s; fakeLabel := fakeLabel s;
     gradientGenerator := gradientGenerator s;
     gradientDiscriminator := gradientDiscriminator s;
     noiseGradientDiscriminator := noiseGradientDiscriminator s;
     entropy := entropy s |}.

Definition with_numFunctions (v : N) (s : GAN) : GAN :=
  {| predictors := predictors s; responses := responses s;
     generator := generator s; discriminator := discriminator s;
     noiseDim := noiseDim s; numFunctions := v; batchSize := batchSize s;
     currentBatch := currentBatch s;
     generatorUpdateStep := generatorUpdateStep s;
     preTrainSize := preTrainSize s; multiplier := multiplier s;
     clippingParameter := clippingParameter s; lambda := lambda s;
     reset := reset s; deterministic := deterministic s;
     parameter := parameter s; noise := noise s;
     genWeights := genWeights s; discWeights := discWeights s;
     realLabel := realLabel s; fakeLabel := fakeLabel s;
     gradientGenerator := gradientGenerator s;
     gradientDiscriminator := gradientDiscriminator s;
     noiseGradientDiscriminator := noiseGradientDiscriminator s;
     entropy := entropy s |}.

Definition with_currentBatch (v : N) (s : GAN) : GAN :=
  {| predictors := predictors s; responses := responses s;
     generator := generator s; discriminator := discriminator s;
     noiseDim := noiseDim s; numFunctions := numFunctions s;
     batchSize := batchSize s; currentBatch := v;
     generatorUpdateStep := generatorUpdateStep s;
     preTrainSize := preTrainSize s; multiplier := multiplier s;
     clippingParameter := clippingParameter s; lambda := lambda s;
     reset := reset s; deterministic := deterministic s;
     parameter := parameter s; noise := noise s;
     genWeights := genWeights s; discWeights := discWeights s;
     realLabel := realLabel s; fakeLabel := fakeLabel s;
     gradientGenerator := gradientGenerator s;
     gradientDiscriminator := gradientDiscriminator s;
     noiseGradientDiscriminator := noiseGradientDiscriminator s;
     entropy := entropy s |}.

Definition with_preTrainSize (v : N) (s : GAN) : GAN :=
  {| predictors := predictors s; responses := responses s;
     generator := generator s; discriminator := discriminator s;
     noiseDim := noiseDim s; numFunctions := numFunctions s;
     batchSize := batchSize s; currentBatch := currentBatch s;
     generatorUpdateStep := generatorUpdateStep s; preTrainSize := v;
     multiplier := multiplier s; clippingParameter := clippingParameter s;
     lambda := lambda s; reset := reset s;
     deterministic := deterministic s; parameter := parameter s;
     noise := noise s; genWeights := genWeights s;
     discWeights := discWeights s; realLabel := realLabel s;
     fakeLabel := fakeLabel s; gradientGenerator := gradientGenerator s;
     gradientDiscriminator := gradientDiscriminator s;
     noiseGradientDiscriminator := noiseGradientDiscriminator s;
     entropy := entropy s |}.

Definition with_reset (v : bool) (s : GAN) : GAN :=
  {| predictors := predictors s; responses := responses s;
     generator := generator s; discriminator := discriminator s;
     noiseDim := noiseDim s; numFunctions := numFunctions s;
     batchSize := batchSize s; currentBatch := currentBatch s;
     generatorUpdateStep := generatorUpdateStep s;
     preTrainSize := preTrainSize s; multiplier := multiplier s;
     clippingParameter := clippingParameter s; lambda := lambda s;
     reset := v; deterministic := deterministic s;
     parameter := parameter s; noise := noise s;
     genWeights := genWeights s; discWeights := discWeights s;
     realLabel := realLabel s; fakeLabel := fakeLabel s;
     gradientGenerator := gradientGenerator s;
     gradientDiscriminator := gradientDiscriminator s;
     noiseGradientDiscriminator := noiseGradientDiscriminator s;
     entropy := entropy s |}.

Definition with_deterministic (v : bool) (s : GAN) : GAN :=
  {| predictors := predictors s; responses := responses s;
     generator := generator s; discriminator := discriminator s;
     noiseDim := noiseDim s; numFunctions := numFunctions s;
     batchSize := batchSize s; currentBatch := currentBatch s;
     generatorUpdateStep := generatorUpdateStep s;
     preTrainSize := preTrainSize s; multiplier := multiplier s;
     clippingParameter := clippingParameter s; lambda := lambda s;
     reset := reset s; deterministic := v; parameter := parameter s;
     noise := noise s; genWeights := genWeights s;
     discWeights := discWeights s; realLabel := realLabel s;
     fakeLabel := fakeLabel s; gradientGenerator := gradientGenerator s;
     gradientDiscriminator := gradientDiscriminator s;
     noiseGradientDiscriminator := noiseGradientDiscriminator s;
     entropy := entropy s |}.

Definition with_parameter (v : list R) (s : GAN) : GAN :=
  {| predictors := predictors s; responses := responses s;
     generator := generator s; discriminator := discriminator s;
     noiseDim := noiseDim s; numFunctions := numFunctions s;
     batchSize := batchSize s; currentBatch := currentBatch s;
     generatorUpdateStep := generatorUpdateStep s;
     preTrainSize := preTrainSize s; multiplier := multiplier s;
     clippingParameter := clippingParameter s; lambda := lambda s;
     reset := reset s; deterministic := deterministic s; parameter := v;
     noise := noise s; genWeights := genWeights s;
     discWeights := discWeights s; realLabel := realLabel s;
     fakeLabel := fakeLabel s; gradientGenerator := gradientGenerator s;
     gradientDiscriminator := gradientDiscriminator s;
     noiseGradientDiscriminator := noiseGradientDiscriminator s;
     entropy := entropy s |}.

Definition with_noise (v : mat) (s : GAN) : GAN :=
  {| predictors := predictors s; responses := responses s;
     generator := generator s; discriminator := discriminator s;
     noiseDim := noiseDim s; numFunctions := numFunctions s;
     batchSize := batchSize s; currentBatch := currentBatch s;
     generatorUpdateStep := generatorUpdateStep s;
     preTrainSize := preTrainSize s; multiplier := multiplier s;
     clippingParameter := clippingParameter s; lambda := lambda s;
     reset := reset s; deterministic := deterministic s;
     parameter := parameter s; noise := v; genWeights := genWeights s;
     discWeights := discWeights s; realLabel := realLabel s;
     fakeLabel := fakeLabel s; gradientGenerator := gradientGenerator s;
     gradientDiscriminator := gradientDiscriminator s;
     noiseGradientDiscriminator := noiseGradientDiscriminator s;
     entropy := entropy s |}.

Definition with_genWeights (v : N) (s : GAN) : GAN :=
  {| predictors := predictors s; responses := responses s;
     generator := generator s; discriminator := discriminator s;
     noiseDim := noiseDim s; numFunctions := numFunctions s;
     batchSize := batchSize s; currentBatch := currentBatch s;
     generatorUpdateStep := generatorUpdateStep s;
     preTrainSize := preTrainSize s; multiplier := multiplier s;
     clippingParameter := clippingParameter s; lambda := lambda s;
     reset := reset s; deterministic := deterministic s;
     parameter := parameter s; noise := noise s; genWeights := v;
     discWeights := discWeights s; realLabel := realLabel s;
     fakeLabel := fakeLabel s; gradientGenerator := gradientGenerator s;
     gradientDiscriminator := gradientDiscriminator s;
     noiseGradientDiscriminator := noiseGradientDiscriminator s;
     entropy := entropy s |}.

Definition with_discWeights (v : N) (s : GAN) : GAN :=
  {| predictors := predictors s; responses := responses s;
     generator := generator s; discriminator := discriminator s;
     noiseDim := noiseDim s; numFunctions := numFunctions s;
     batchSize := batchSize s; currentBatch := currentBatch s;
     generatorUpdateStep := generatorUpdateStep s;
     preTrainSize := preTrainSize s; multiplier := multiplier s;
     clippingParameter := clippingParameter s; lambda := lambda s;
     reset := reset s; deterministic := deterministic s;
     parameter := parameter s; noise := noise s;
     genWeights := genWeights s; discWeights := v;
     realLabel := realLabel s; fakeLabel := fakeLabel s;
     gradientGenerator := gradientGenerator s;
     gradientDiscriminator := gradientDiscriminator s;
     noiseGradientDiscriminator := noiseGradientDiscriminator s;
     entropy := entropy s |}.

Definition with_realLabel (v : R) (s : GAN) : GAN :=
  {| predictors := predictors s; responses := responses s;
     generator := generator s; discriminator := discriminator s;
     noiseDim := noiseDim s; numFunctions := numFunctions s;
     batchSize := batchSize s; currentBatch := currentBatch s;
     generatorUpdateStep := generatorUpdateStep s;
     preTrainSize := preTrainSize s; multiplier := multiplier s;
     clippingParameter := clippingParameter s; lambda := lambda s;
     reset := reset s; deterministic := deterministic s;
     parameter := parameter s; noise := noise s;
     genWeights := genWeights s; discWeights := discWeights s;
     realLabel := v; fakeLabel := fakeLabel s;
     gradientGenerator := gradientGenerator s;
     gradientDiscriminator := gradientDiscriminator s;
     noiseGradientDiscriminator := noiseGradientDiscriminator s;
     entropy := entropy s |}.

Definition with_fakeLabel (v : R) (s : GAN) : GAN :=
  {| predictors := predictors s; responses := responses s;
     generator := generator s; discriminator := discriminator s;
     noiseDim := noiseDim s; numFunctions := numFunctions s;
     batchSize := batchSize s; currentBatch := currentBatch s;
     generatorUpdateStep := generatorUpdateStep s;
     preTrainSize := preTrainSize s; multiplier := multiplier s;
     clippingParameter := clippingParameter s; lambda := lambda s;
     reset := reset s; deterministic := deterministic s;
     parameter := parameter s; noise := noise s;
     genWeights := genWeights s; discWeights := discWeights s;
     realLabel := realLabel s; fakeLabel := v;
     gradientGenerator := gradientGenerator s;
     gradientDiscriminator := gradientDiscriminator s;
     noiseGradientDiscriminator := noiseGradientDiscriminator s;
     entropy := entropy s |}.

Definition with_gradientGenerator (v : view) (s : GAN) : GAN :=
  {| predictors := predictors s; responses := responses s;
     generator := generator s; discriminator := discriminator s;
     noiseDim := noiseDim s; numFunctions := numFunctions s;
     batchSize := batchSize s; currentBatch := currentBatch s;
     generatorUpdateStep := generatorUpdateStep s;
     preTrainSize := preTrainSize s; multiplier := multiplier s;
     clippingParameter := clippingParameter s; lambda := lambda s;
     reset := reset s; deterministic := deterministic s;
     parameter := parameter s; noise := noise s;
     genWeights := genWeights s; discWeights := discWeights s;
     realLabel := realLabel s; fakeLabel := fakeLabel s;
     gradientGenerator := v;
     gradientDiscriminator := gradientDiscriminator s;
     noiseGradientDiscriminator := noiseGradientDiscriminator s;
     entropy := entropy s |}.

Definition with_gradientDiscriminator (v : view) (s : GAN) : GAN :=
  {| predictors := predictors s; responses := responses s;
     generator := generator s; discriminator := discriminator s;
     noiseDim := noiseDim s; numFunctions := numFunctions s;
     batchSize := batchSize s; currentBatch := currentBatch s;
     generatorUpdateStep := generatorUpdateStep s;
     preTrainSize := preTrainSize s; multiplier := multiplier s;
     clippingParameter := clippingParameter s; lambda := lambda s;
     reset := reset s; deterministic := deterministic s;
     parameter := parameter s; noise := noise s;
     genWeights := genWeights s; discWeights := discWeights s;
     realLabel := realLabel s; fakeLabel := fakeLabel s;
     gradientGenerator := gradientGenerator s; gradientDiscriminator := v;
     noiseGradientDiscriminator := noiseGradientDiscriminator s;
     entropy := entropy s |}.

Definition with_noiseGradientDiscriminator (v : list R) (s : GAN) : GAN :=
  {| predictors := predictors s; responses := responses s;
     generator := generator s; discriminator := discriminator s;
     noiseDim := noiseDim s; numFunctions := numFunctions s;
     batchSize := batchSize s; currentBatch := currentBatch s;
     generatorUpdateStep := generatorUpdateStep s;
     preTrainSize := preTrainSize s; multiplier := multiplier s;
     clippingParameter := clippingParameter s; lambda := lambda s;
     reset := reset s; deterministic := deterministic s;
     parameter := parameter s; noise := noise s;
     genWeights := genWeights s; discWeights := discWeights s;
     realLabel := realLabel s; fakeLabel := fakeLabel s;
     gradientGenerator := gradientGenerator s;
     gradientDiscriminator := gradientDiscriminator s;
     noiseGradientDiscriminator := v; entropy := entropy s |}.

Definition with_entropy (v : Rng) (s : GAN) : GAN :=
  {| predictors := predictors s; responses := responses s;
     generator := generator s; discriminator := discriminator s;
     noiseDim := noiseDim s; numFunctions := numFunctions s;
     batchSize := batchSize s; currentBatch := currentBatch s;
     generatorUpdateStep := generatorUpdateStep s;
     preTrainSize := preTrainSize s; multiplier := multiplier s;
     clippingParameter := clippingParameter s; lambda := lambda s;
     reset := reset s; deterministic := deterministic s;
     parameter := parameter s; noise := noise s;
     genWeights := genWeights s; discWeights := discWeights s;
     realLabel := realLabel s; fakeLabel := fakeLabel s;
     gradientGenerator := gradientGenerator s;
     gradientDiscriminator := gradientDiscriminator s;
     noiseGradientDiscriminator := noiseGradientDiscriminator s;
     entropy := v |}.

(** What a matrix member of a sub-model denotes in engine state [s]. *)
Definition bound (s : GAN) (b : FFN.binding) : mat :=
  match b with
  | FFN.own m => m
  | FFN.engine_predictors => predictors s
  | FFN.engine_responses => responses s
  end.

(** The weights a sub-model reads through its [parameter] view. *)
Definition weights (s : GAN) (m : FFN.t L) : list R :=
  view_get (FFN.parameter m) (parameter s).

(** [M.set_size(r, c)]: a matrix of that shape already is left alone,
    otherwise the memory is fresh. *)
Definition set_size (r c : nat) (old : mat) : mat :=
  if Nat.eqb (n_rows old) r && Nat.eqb (n_cols old) c then old
  else filled r c indeterminate.

(** [v.set_size(n, 1)]. *)
Definition set_size_vec (n : N) (old : list R) : list R :=
  if N.of_nat (length old) =? n then old
  else repeat indeterminate (N.to_nat n).

(** [M.imbue(f)]: every element, column by column, gets a fresh [f()]. *)
Fixpoint imbue_col (n : nat) (g : Rng) : list R * Rng :=
  match n with
  | O => ([], g)
  | S n' =>
      let (x, g1) := noiseFunction g in
      let (xs, g2) := imbue_col n' g1 in
      (x :: xs, g2)
  end.

Fixpoint imbue (m : mat) (g : Rng) : mat * Rng :=
  match m with
  | [] => ([], g)
  | c :: cs =>
      let (c', g1) := imbue_col (length c) g in
      let (cs', g2) := imbue cs g1 in
      (c' :: cs', g2)
  end.

(** [network.back()] *)
Definition back (net : list Layer) : option Layer :=
  nth_error net (pred (length net)).

(** The constructor; [seed] is the state of the random number generator
    when the engine is built. *)
Definition GAN_new (generator discriminator : FFN.t L) (seed : Rng)
    (noiseDim batchSize generatorUpdateStep preTrainSize : N)
    (multiplier clippingParameter lambda : R) : GAN :=
  {| predictors := []; responses := [];
     generator := generator;
     discriminator :=
       FFN.with_network (IdentityLayer :: FFN.network discriminator)
                        discriminator;
     noiseDim := noiseDim; numFunctions := 0; batchSize := batchSize;
     currentBatch := 0; generatorUpdateStep := generatorUpdateStep;
     preTrainSize := preTrainSize; multiplier := multiplier;
     clippingParameter := clippingParameter; lambda := lambda;
     reset := false; deterministic := false;
     parameter := []; noise := [];
     genWeights := 0; discWeights := 0;
     realLabel := 0%R; fakeLabel := 0%R;
     gradientGenerator := empty_view; gradientDiscriminator := empty_view;
     noiseGradientDiscriminator := [];
     entropy := seed |}.

(** [ResetDeterministic()] *)
Definition ResetDeterministic (s : GAN) : GAN :=
  let d := FFN.with_deterministic (deterministic s) (discriminator s) in
  let g := FFN.with_deterministic (deterministic s) (generator s) in
  let d := FFN.with_network (FFN_ResetDeterministic d) d in
  let g := FFN.with_network (FFN_ResetDeterministic g) g in
  with_generator g (with_discriminator d s).

(** The two counting loops of [Reset]: [weights += size] on a
    [size_t]. *)
Definition count_weights (net : list Layer) : N :=
  fold_left (fun acc l => SizeT.add acc (weightSizeVisitor l)) net 0.

(** The number of weights the layers of a network really have. *)
Definition weight_total (net : list Layer) : N :=
  fold_right N.add 0 (map weightSizeVisitor net).

(** [Reset()].  The initialisation binds the weights of every layer at
    its running offset inside [parameter]: when the layers have more
    weights than a [size_t] counts, the sums have wrapped, the buffer is
    shorter than the weights bound into it and the writes leave it.  No
    buffer of that size exists; the model faults. *)
Definition Reset (s : GAN) : option GAN :=
  let genWeights := count_weights (FFN.network (generator s)) in
  let discWeights := count_weights (FFN.network (discriminator s)) in
  let s := with_discWeights discWeights (with_genWeights genWeights s) in
  let s := with_parameter
             (set_size_vec (SizeT.add genWeights discWeights) (parameter s))
             s in
  let s := with_generator
             (FFN.with_parameter
                {| offset := 0; view_n_elem := genWeights |} (generator s))
             s in
  let s := with_discriminator
             (FFN.with_parameter
                {| offset := genWeights; view_n_elem := discWeights |}
                (discriminator s))
             s in
  ensure (weight_total (FFN.network (generator s))
          + weight_total (FFN.network (discriminator s))
          <=? SizeT.size_max) ;;
  ' (gnet, written, g1) <-
      NetworkInit_Initialize (entropy s) (FFN.network (generator s))
                             (parameter s) 0 ;;
  let s := with_entropy g1
             (with_parameter (overlay (parameter s) written)
                (with_generator (FFN.with_network gnet (generator s)) s)) in
  ' (dnet, written, g2) <-
      NetworkInit_Initialize (entropy s) (FFN.network (discriminator s))
                             (parameter s) genWeights ;;
  let s := with_entropy g2
             (with_parameter (overlay (parameter s) written)
                (with_discriminator
                   (FFN.with_network dnet (discriminator s)) s)) in
  Some (with_reset true s).

(** [ResetData(trainData, realLabel, fakeLabel)] *)
Definition ResetData (trainData : mat) (realLabel fakeLabel : R) (s : GAN)
  : option GAN :=
  let s := with_currentBatch 0 s in
  let s := with_fakeLabel fakeLabel (with_realLabel realLabel s) in
  let s := with_numFunctions (N.of_nat (n_cols trainData)) s in
  let s := with_noise
             (set_size (N.to_nat (noiseDim s)) (N.to_nat (batchSize s))
                       (noise s)) s in
  let s := ResetDeterministic (with_deterministic true s) in
  let sized :=
    set_size (n_rows trainData)
             (N.to_nat (SizeT.add (numFunctions s) (batchSize s)))
             (predictors s) in
  p <- set_cols 0 (SizeT.sub (numFunctions s) 1) trainData sized ;;
  let s := with_predictors p s in
  let s := with_discriminator
             (FFN.with_predictors FFN.engine_predictors (discriminator s))
             s in
  let fakeResponses := filled 1 (N.to_nat (batchSize s)) fakeLabel in
  r <- join_rows (filled 1 (N.to_nat (numFunctions s)) realLabel)
                 fakeResponses ;;
  let s := with_responses r s in
  let s := with_discriminator
             (FFN.with_responses FFN.engine_responses (discriminator s))
             s in
  let g := generator s in
  let g := FFN.with_predictors
             (FFN.own (set_size (N.to_nat (noiseDim s))
                                (N.to_nat (batchSize s))
                                (bound s (FFN.predictors g)))) g in
  let g := FFN.with_responses
             (FFN.own (set_size (n_rows (predictors s))
                                (N.to_nat (batchSize s))
                                (bound s (FFN.responses g)))) g in
  let s := with_generator g s in
  if negb (reset s) then Reset s else Some s.

(** [if (parameter.is_empty()) Reset();] *)
Definition Reset_if_empty (s : GAN) : option GAN :=
  if is_empty (parameter s) then Reset s else Some s.

(** [if (!deterministic) { deterministic = true; ResetDeterministic(); }] *)
Definition inferenceMode (s : GAN) : GAN :=
  if negb (deterministic s)
  then ResetDeterministic (with_deterministic true s) else s.

(** [if (deterministic) { deterministic = false; ResetDeterministic(); }] *)
Definition trainingMode (s : GAN) : GAN :=
  if deterministic s
  then ResetDeterministic (with_deterministic false s) else s.

(** [numFunctions + batchSize - 1] *)
Definition lastGenerated (s : GAN) : N :=
  SizeT.sub (SizeT.add (numFunctions s) (batchSize s)) 1.

(** [Evaluate(parameters, i, batchSize)]; neither [parameters] nor the
    [batchSize] argument is read. *)
Definition Evaluate (parameters : list R) (i : N) (batchSizeArg : N)
    (s : GAN) : option (R * GAN) :=
  s <- Reset_if_empty s ;;
  let s := inferenceMode s in
  let s := inferenceMode s in
  currentInput <- raw_window i (batchSize s) (predictors s) ;;
  currentTarget <- raw_window i (batchSize s) (responses s) ;;
  let d := discriminator s in
  dnet <- FFN_Forward d (weights s d) currentInput ;;
  let s := with_discriminator (FFN.with_network dnet d) s in
  dback <- back (FFN.network (discriminator s)) ;;
  let res := OutputLayer_Forward (discriminator s)
               (outputParameterVisitor dback) currentTarget in
  let (fresh, g) := imbue (noise s) (entropy s) in
  let s := with_entropy g (with_noise fresh s) in
  let gen := generator s in
  gnet <- FFN_Forward gen (weights s gen) (noise s) ;;
  let s := with_generator (FFN.with_network gnet gen) s in
  gback <- back (FFN.network (generator s)) ;;
  p <- set_cols (numFunctions s) (lastGenerated s)
                (outputParameterVisitor gback) (predictors s) ;;
  let s := with_predictors p s in
  generated <- cols (numFunctions s) (lastGenerated s) (predictors s) ;;
  let d := discriminator s in
  dnet <- FFN_Forward d (weights s d) generated ;;
  let s := with_discriminator (FFN.with_network dnet d) s in
  let fakeResponses := filled 1 (N.to_nat (batchSize s)) (fakeLabel s) in
  r <- set_cols (numFunctions s) (lastGenerated s) fakeResponses
                (responses s) ;;
  let s := with_responses r s in
  currentTarget <- raw_window (numFunctions s) (batchSize s)
                              (responses s) ;;
  dback <- back (FFN.network (discriminator s)) ;;
  Some ((res + OutputLayer_Forward (discriminator s)
                 (outputParameterVisitor dback) currentTarget)%R, s).

(** The block under [if (currentBatch % generatorUpdateStep == 0 &&
    preTrainSize == 0)] of [EvaluateWithGradient]; [gradient] is the
    caller's buffer, which [gradientGenerator] aliases. *)
Definition generatorStep (gradient : list R) (s : GAN)
  : option (list R * GAN) :=
  let fakeResponses := filled 1 (N.to_nat (batchSize s)) (realLabel s) in
  r <- set_cols (numFunctions s) (lastGenerated s) fakeResponses
                (responses s) ;;
  let s := with_responses r s in
  let d := discriminator s in
  ' (dnet, ngd) <-
      FFN_Gradient d (weights s d) (bound s (FFN.predictors d))
                   (bound s (FFN.responses d)) (numFunctions s)
                   (noiseGradientDiscriminator s) (batchSize s) ;;
  let s := with_noiseGradientDiscriminator ngd
             (with_discriminator (FFN.with_network dnet d) s) in
  layer1 <- nth_error (FFN.network (discriminator s)) 1 ;;
  let gen := FFN.with_error (deltaVisitor layer1) (generator s) in
  let gen := FFN.with_predictors (FFN.own (noise s)) gen in
  let (gnet, written) :=
    FFN_ResetGradients gen (view_get (gradientGenerator s) gradient) in
  let gradient := view_set (gradientGenerator s) written gradient in
  let gen := FFN.with_network gnet gen in
  ' (gnet, written) <-
      FFN_Gradient gen (weights s gen) (bound s (FFN.predictors gen))
                   (bound s (FFN.responses gen)) 0
                   (view_get (gradientGenerator s) gradient)
                   (batchSize s) ;;
  let gradient := view_set (gradientGenerator s) written gradient in
  let gen := FFN.with_network gnet gen in
  let gradient :=
    view_set (gradientGenerator s)
             (map (fun x => (x * multiplier s)%R)
                  (view_get (gradientGenerator s) gradient))
             gradient in
  Some (gradient, with_generator gen s).

(** [EvaluateWithGradient(parameters, i, gradient, batchSize)]: the loss,
    the caller's gradient buffer after the call, the engine after the
    call.  Neither [parameters] nor the [batchSize] argument is read. *)
Definition EvaluateWithGradient (parameters : list R) (i : N)
    (gradient : list R) (batchSizeArg : N) (s : GAN)
  : option (R * list R * GAN) :=
  s <- Reset_if_empty s ;;
  ' (gradient, s) <-
      (if is_empty gradient
       then s <- Reset_if_empty s ;;
            Some (zeros (length (parameter s)), s)
       else Some (zeros (length gradient), s)) ;;
  let s := trainingMode s in
  let s := with_noiseGradientDiscriminator
             (if is_empty (noiseGradientDiscriminator s)
              then zeros (N.to_nat (view_n_elem (gradientDiscriminator s)))
              else zeros (length (noiseGradientDiscriminator s))) s in
  let s := with_gradientGenerator
             {| offset := 0;
                view_n_elem := view_n_elem (FFN.parameter (generator s)) |}
             s in
  let s := with_gradientDiscriminator
             {| offset := view_n_elem (gradientGenerator s);
                view_n_elem :=
                  view_n_elem (FFN.parameter (discriminator s)) |}
             s in
  (* both views are raw windows of the caller's buffer *)
  ensure (view_fits (gradientGenerator s) gradient
          && view_fits (gradientDiscriminator s) gradient) ;;
  (* Get the gradients of the Discriminator. *)
  let d := discriminator s in
  ' (dnet, written, res) <-
      FFN_EvaluateWithGradient d (weights s d) (bound s (FFN.predictors d))
        (bound s (FFN.responses d)) i
        (view_get (gradientDiscriminator s) gradient) (batchSize s) ;;
  let gradient := view_set (gradientDiscriminator s) written gradient in
  let s := with_discriminator (FFN.with_network dnet d) s in
  let (fresh, g) := imbue (noise s) (entropy s) in
  let s := with_entropy g (with_noise fresh s) in
  let gen := generator s in
  gnet <- FFN_Forward gen (weights s gen) (noise s) ;;
  let s := with_generator (FFN.with_network gnet gen) s in
  gback <- back (FFN.network (generator s)) ;;
  p <- set_cols (numFunctions s) (lastGenerated s)
                (outputParameterVisitor gback) (predictors s) ;;
  let s := with_predictors p s in
  let fakeResponses := filled 1 (N.to_nat (batchSize s)) (fakeLabel s) in
  r <- set_cols (numFunctions s) (lastGenerated s) fakeResponses
                (responses s) ;;
  let s := with_responses r s in
  (* Get the gradients of the Generator. *)
  let d := discriminator s in
  ' (dnet, ngd, res2) <-
      FFN_EvaluateWithGradient d (weights s d) (bound s (FFN.predictors d))
        (bound s (FFN.responses d)) (numFunctions s)
        (noiseGradientDiscriminator s) (batchSize s) ;;
  let s := with_noiseGradientDiscriminator ngd
             (with_discriminator (FFN.with_network dnet d) s) in
  (* gradientDiscriminator += noiseGradientDiscriminator *)
  ensure (N.of_nat (length (noiseGradientDiscriminator s))
          =? view_n_elem (gradientDiscriminator s)) ;;
  let gradient :=
    view_set (gradientDiscriminator s)
             (map (fun q => (fst q + snd q)%R)
                  (combine (view_get (gradientDiscriminator s) gradient)
                           (noiseGradientDiscriminator s)))
             gradient in
  phase <- SizeT.rem (currentBatch s) (generatorUpdateStep s) ;;
  ' (gradient, s) <-
      (if (phase =? 0) && (preTrainSize s =? 0)
       then generatorStep gradient s
       else Some (gradient, s)) ;;
  let s := with_currentBatch (SizeT.incr (currentBatch s)) s in
  (* preTrainSize--, under preTrainSize > 0: no wrap-around *)
  let s := if 0 <? preTrainSize s
           then with_preTrainSize (preTrainSize s - 1) s else s in
  Some ((res + res2)%R, gradient, s).

(** [Gradient(parameters, i, gradient, batchSize)] *)
Definition Gradient (parameters : list R) (i : N) (gradient : list R)
    (batchSizeArg : N) (s : GAN) : option (list R * GAN) :=
  ' (_, gradient, s) <-
      EvaluateWithGradient parameters i gradient batchSizeArg s ;;
  Some (gradient, s).

(** [Shuffle()]; [linspace(0, numFunctions - 1, numFunctions)] has
    [numFunctions] elements, none when [numFunctions] is 0. *)
Definition Shuffle (s : GAN) : option GAN :=
  let (ordering, g) :=
    arma_shuffle (entropy s) (linspace_from_0 (numFunctions s)) in
  let s := with_entropy g s in
  picked <- cols_at ordering (predictors s) ;;
  p <- set_cols 0 (SizeT.sub (numFunctions s) 1) picked (predictors s) ;;
  Some (with_predictors p s).

(** The generator-update gate of a call, read off the engine the call
    starts from; with [generatorUpdateStep = 0] the call divides by zero
    and returns nothing. *)
Definition gate (s : GAN) : bool :=
  (currentBatch s mod generatorUpdateStep s =? 0) && (preTrainSize s =? 0).

(** A run of the optimizer: one [EvaluateWithGradient] per entry, each
    with its own arguments; loss and gradient go to the caller. *)
Fixpoint EvaluateWithGradient_run
    (calls : list (list R * N * list R * N)) (s : GAN) : option GAN :=
  match calls with
  | [] => Some s
  | (parameters, i, gradient, batchSizeArg) :: rest =>
      ' (_, _, s) <-
          EvaluateWithGradient parameters i gradient batchSizeArg s ;;
      EvaluateWithGradient_run rest s
  end.

(** The members that neither [Reset] nor a change of mode writes;
    [s'] has them as [s] has. *)
Definition untouched (s s' : GAN) : Prop :=
  predictors s' = predictors s /\ responses s' = responses s
  /\ noiseDim s' = noiseDim s /\ numFunctions s' = numFunctions s
  /\ batchSize s' = batchSize s /\ currentBatch s' = currentBatch s
  /\ generatorUpdateStep s' = generatorUpdateStep s
  /\ preTrainSize s' = preTrainSize s /\ multiplier s' = multiplier s
  /\ realLabel s' = realLabel s /\ fakeLabel s' = fakeLabel s
  /\ noise s' = noise s
  /\ gradientGenerator s' = gradientGenerator s
  /\ gradientDiscriminator s' = gradientDiscriminator s
  /\ noiseGradientDiscriminator s' = noiseGradientDiscriminator s.

(** *** The observations the properties are stated on *)

(** The layout of the parameter buffer: the generator's view is
    [0, genWeights), the discriminator's [genWeights, genWeights +
    discWeights), and the two together are the whole buffer. *)
Definition arena_layout (s : GAN) : Prop :=
  N.of_nat (length (parameter s)) = genWeights s + discWeights s
  /\ FFN.parameter (generator s)
     = {| offset := 0; view_n_elem := genWeights s |}
  /\ FFN.parameter (discriminator s)
     = {| offset := genWeights s; view_n_elem := discWeights s |}
  /\ parameter s = weights s (generator s) ++ weights s (discriminator s).

(** The labels of the generated slice, columns
    [numFunctions, numFunctions + batchSize) of [responses]. *)
Definition generatedLabels (s : GAN) : mat :=
  firstn (N.to_nat (batchSize s))
         (skipn (N.to_nat (numFunctions s)) (responses s)).

(** The generator-reserved columns of [predictors]. *)
Definition generatedColumns (s : GAN) : mat :=
  firstn (N.to_nat (batchSize s))
         (skipn (N.to_nat (numFunctions s)) (predictors s)).

(** The real-sample columns [0, numFunctions) of [predictors]. *)
Definition realColumns (s : GAN) : mat :=
  firstn (N.to_nat (numFunctions s)) (predictors s).

End Engine.

(* ================================================================= *)
(** ** A small concrete engine

    One layer with one weight in each sub-model, one-dimensional samples
    and noise, a counter for a random number generator.  It serves to run
    the engine on concrete inputs. *)

Module Toy.

Open Scope N_scope.

#[export] Instance layers : Layers := {|
  Layer := N * mat;
  IdentityLayer := (0, []);
  weightSizeVisitor := fst;
  outputParameterVisitor := snd;
  deltaVisitor := snd
|}.

Definition real (n : N) : R := IZR (Z.of_N n).

(** Draws every weight of the network from the generator, in order. *)
Definition initialize (g : N) (net : list (N * mat)) (param : list R)
    (off : N) : option (list (N * mat) * list R * N) :=
  let n := fold_right N.add 0 (map fst net) in
  Some (net,
        firstn (N.to_nat off) param
        ++ map (fun k => real (g + N.of_nat k)) (seq 0 (N.to_nat n)),
        g + n).

#[export] Instance collaborators : Collaborators layers := {|
  Rng := N;
  indeterminate := 0%R;
  noiseFunction := fun g => (real g, g + 1);
  arma_shuffle := fun g l => (rev l, g + 1);
  NetworkInit_Initialize := initialize;
  FFN_Forward := fun m _ input =>
    Some (map (fun l => (fst l, input)) (FFN.network m));
  OutputLayer_Forward := fun _ _ _ => 0%R;
  FFN_EvaluateWithGradient := fun m w _ _ _ _ _ =>
    Some (FFN.network m, repeat 1%R (length w), 0%R);
  FFN_Gradient := fun m w _ _ _ _ _ =>
    Some (FFN.network m, repeat 1%R (length w));
  FFN_ResetGradients := fun m g => (FFN.network m, g);
  FFN_ResetDeterministic := fun m => FFN.network m
|}.

Definition model : FFN.t layers :=
  {| FFN.network := [(1, [])]; FFN.parameter := empty_view;
     FFN.predictors := FFN.own []; FFN.responses := FFN.own [];
     FFN.deterministic := false; FFN.error := [] |}.

(** A fresh engine: noise of dimension 1, batches of 1. *)
Definition fresh (generatorUpdateStep preTrainSize : N) : GAN :=
  GAN_new model model 0 1 1 generatorUpdateStep preTrainSize 1%R 0%R 0%R.

Definition force {A : Type} (d : A) (o : option A) : A :=
  match o with Some a => a | None => d end.

(** The two samples 1 and 2, real label 1, fake label 0. *)
Definition trainData : mat := [[1%R]; [2%R]].

Definition loaded (generatorUpdateStep preTrainSize : N) : GAN :=
  force (fresh generatorUpdateStep preTrainSize)
        (ResetData trainData 1%R 0%R (fresh generatorUpdateStep preTrainSize)).

(** The engine and the caller's gradient after one training step. *)
Definition trained (s : GAN) : R * list R * GAN :=
  force (0%R, [], s) (EvaluateWithGradient [] 0 [] 0 s).

Definition lossAfter (s : GAN) : R := fst (fst (trained s)).
Definition gradientAfter (s : GAN) : list R := snd (fst (trained s)).
Definition engineAfter (s : GAN) : GAN := snd (trained s).

(** A fresh engine after one and after two direct calls of [Reset]. *)
Definition onceReset : GAN := force (fresh 1 0) (Reset (fresh 1 0)).
Definition twiceReset : GAN := force onceReset (Reset onceReset).

(** The loaded engine after loading the same data once more. *)
Definition reloaded (s : GAN) : GAN :=
  force s (ResetData trainData 1%R 0%R s).

(** The engine after a loss-only evaluation. *)
Definition evaluated (s : GAN) : R * GAN :=
  force (0%R, s) (Evaluate [] 0 0 s).

Definition shuffled (s : GAN) : GAN := force s (Shuffle s).

(** Two training steps in a row. *)
Definition twoCalls : list (list R * N * list R * N) :=
  [([], 0, [], 0); ([], 0, [], 0)].

End Toy.

(* ================================================================= *)
(** ** [GAN], continued: inference and persistence  (gan_impl.hpp) *)

Section Inference.

Context {L : Layers} {C : Collaborators L}.

Open Scope fault_scope.
Open Scope N_scope.

(** [Forward(input)]: the generator's output is handed to the
    discriminator. *)
Definition Forward (input : mat) (s : GAN) : option GAN :=
  s <- Reset_if_empty s ;;
  let gen := generator s in
  gnet <- FFN_Forward gen (weights s gen) input ;;
  let s := with_generator (FFN.with_network gnet gen) s in
  gback <- back (FFN.network (generator s)) ;;
  let ganOutput := outputParameterVisitor gback in
  let d := discriminator s in
  dnet <- FFN_Forward d (weights s d) ganOutput ;;
  Some (with_discriminator (FFN.with_network dnet d) s).

(** [Predict(input, output)]: [output] and the engine after the call. *)
Definition Predict (input : mat) (s : GAN) : option (mat * GAN) :=
  s <- Reset_if_empty s ;;
  let s := inferenceMode s in
  let s := inferenceMode s in
  s <- Forward input s ;;
  dback <- back (FFN.network (discriminator s)) ;;
  Some (outputParameterVisitor dback, s).

(** *** Further observations *)

(** The state of the random number generator after [k] calls of
    [noiseFunction()] from state [g]; the [k]-th call, counted from 0,
    returns [fst (noiseFunction (drawn k g))]. *)
Fixpoint drawn (k : nat) (g : Rng) : Rng :=
  match k with
  | O => g
  | S k' => drawn k' (snd (noiseFunction g))
  end.

(** The two data buffers have a column for every real sample and for
    every sample of a generated batch. *)
Definition fused_layout (s : GAN) : Prop :=
  n_cols (predictors s)
  = (N.to_nat (numFunctions s) + N.to_nat (batchSize s))%nat
  /\ n_cols (responses s)
     = (N.to_nat (numFunctions s) + N.to_nat (batchSize s))%nat.

(** The labels of the real samples, columns [0, numFunctions) of
    [responses]. *)
Definition realLabels (s : GAN) : mat :=
  firstn (N.to_nat (numFunctions s)) (responses s).

(** The mode flag of each sub-model is the engine's. *)
Definition modes_agree (s : GAN) : Prop :=
  FFN.deterministic (generator s) = deterministic s
  /\ FFN.deterministic (discriminator s) = deterministic s.

(** The parameter buffer, the two counts, the two parameter views and
    the latch of [s'] are those of [s]. *)
Definition arena_kept (s s' : GAN) : Prop :=
  parameter s' = parameter s
  /\ genWeights s' = genWeights s /\ discWeights s' = discWeights s
  /\ FFN.parameter (generator s') = FFN.parameter (generator s)
  /\ FFN.parameter (discriminator s') = FFN.parameter (discriminator s)
  /\ reset s' = reset s.

(** The mode flags of [s'] and what the sub-models are bound to are
    those of [s]. *)
Definition modes_kept (s s' : GAN) : Prop :=
  deterministic s' = deterministic s
  /\ FFN.deterministic (generator s') = FFN.deterministic (generator s)
  /\ FFN.deterministic (discriminator s')
     = FFN.deterministic (discriminator s)
  /\ FFN.predictors (discriminator s') = FFN.predictors (discriminator s)
  /\ FFN.responses (discriminator s') = FFN.responses (discriminator s).

End Inference.

(** The two visitors [serialize] applies to the layers it has loaded. *)
Class Persistence (L : Layers) : Type := {
  (** [WeightSetVisitor(weights, offset)] on a layer: the layer with its
      weights bound at [offset] of the sub-model's weights, and the number
      of weights it takes *)
  WeightSetVisitor : list R -> N -> Layer -> Layer * N;
  (** [resetVisitor] *)
  resetVisitor : Layer -> Layer
}.

Section Serialization.

Context {L : Layers} {C : Collaborators L} {P : Persistence L}.

Open Scope N_scope.

(** What the six [ar & ...] statements of [serialize] write to an archive
    or read from it.  The archive library and the [serialize] of the
    sub-models are outside the file.  A sub-model is archived by value: the
    one read back owns its weights, its [parameter] member is no view of
    the engine's buffer, and what that member holds is of no account,
    since the loading code binds it anew. *)
Record archive : Type := {
  saved_parameter : list R;
  saved_generator : FFN.t L;
  saved_discriminator : FFN.t L;
  saved_reset : bool;
  saved_genWeights : N;
  saved_discWeights : N
}.

(** [Archive::is_loading::value] *)
Inductive direction : Type := saving | loading.

(** The loop [offset += WeightSetVisitor(weights, offset)(layer);
    resetVisitor(layer)] over a network. *)
Fixpoint bind_weights (w : list R) (offset : N) (net : list Layer)
  : list Layer :=
  match net with
  | [] => []
  | l :: rest =>
      let (l', n) := WeightSetVisitor w offset l in
      resetVisitor l' :: bind_weights w (SizeT.add offset n) rest
  end.

(** [serialize(ar, version)]: the archive and the engine afterwards. *)
Definition serialize (d : direction) (ar : archive) (s : GAN)
  : archive * GAN :=
  match d with
  | saving =>
      ({| saved_parameter := parameter s;
          saved_generator := FFN.with_parameter empty_view (generator s);
          saved_discriminator :=
            FFN.with_parameter empty_view (discriminator s);
          saved_reset := reset s;
          saved_genWeights := genWeights s;
          saved_discWeights := discWeights s |}, s)
  | loading =>
      let s := with_parameter (saved_parameter ar) s in
      let s := with_generator (saved_generator ar) s in
      let s := with_discriminator (saved_discriminator ar) s in
      let s := with_reset (saved_reset ar) s in
      let s := with_genWeights (saved_genWeights ar) s in
      let s := with_discWeights (saved_discWeights ar) s in
      (* Share the parameters between the network. *)
      let s := with_generator
                 (FFN.with_parameter
                    {| offset := 0; view_n_elem := genWeights s |}
                    (generator s)) s in
      let s := with_discriminator
                 (FFN.with_parameter
                    {| offset := genWeights s;
                       view_n_elem := discWeights s |}
                    (discriminator s)) s in
      let s := with_generator
                 (FFN.with_network
                    (bind_weights (weights s (generator s)) 0
                                  (FFN.network (generator s)))
                    (generator s)) s in
      let s := with_discriminator
                 (FFN.with_network
                    (bind_weights (weights s (discriminator s)) 0
                                  (FFN.network (discriminator s)))
                    (discriminator s)) s in
      (ar, ResetDeterministic (with_deterministic true s))
  end.

(** The offsets at which the layers of a network hold their weights when
    every layer follows the ones before it: the weights of the layers
    before, counted in a [size_t]. *)
Definition layer_offsets (net : list Layer) : list N :=
  map (fun k => SizeT.wrap (weight_total (firstn k net)))
      (seq 0 (length net)).

End Serialization.


(** The small concrete engine, continued. *)
Module ToyStore.

Import Toy.

Open Scope N_scope.

(** Every layer takes as many weights as it has. *)
#[export] Instance persistence : Persistence layers := {|
  WeightSetVisitor := fun _ _ l => (l, fst l);
  resetVisitor := fun l => l
|}.

(** An engine built for batches of no sample, with the two samples. *)
Definition unbatched : GAN :=
  force (fresh 1 0)
        (ResetData trainData 1%R 0%R
           (GAN_new model model 0 1 0 1 0 1%R 0%R 0%R)).

(** The engine and the output after a prediction on the input 5. *)
Definition predicted (s : GAN) : mat * GAN :=
  force ([], s) (Predict [[5%R]] s).

(** An archive that holds nothing yet. *)
Definition blank : archive :=
  {| saved_parameter := []; saved_generator := model;
     saved_discriminator := model; saved_reset := false;
     saved_genWeights := 0; saved_discWeights := 0 |}.

(** What [s] saves. *)
Definition archived (s : GAN) : archive := fst (serialize saving blank s).

(** The engine [t] after loading what [s] has saved. *)
Definition restored (s t : GAN) : GAN :=
  snd (serialize loading (archived s) t).

End ToyStore.

(* ================================================================= *)
(** ** Buffers, views and column ranges *)

Section BufferFacts.

Import Arma.

Lemma overlay_length (old new : list R) :
  length (overlay old new) = length old.
Proof.
  revert new; induction old as [|o old IH]; intros [|x new]; simpl; auto.
Qed.

Lemma view_get_length (v : view) (buf : list R) :
  view_fits v buf = true ->
  length (view_get v buf) = N.to_nat (view_n_elem v).
Proof.
  unfold view_fits, view_get; intros H.
  apply N.leb_le in H.
  rewrite length_firstn, length_skipn. lia.
Qed.

Lemma view_set_length (v : view) (data buf : list R) :
  view_fits v buf = true ->
  length (view_set v data buf) = length buf.
Proof.
  intros H. unfold view_set.
  rewrite !length_app, overlay_length, (view_get_length _ _ H).
  unfold view_fits in H. apply N.leb_le in H.
  rewrite length_firstn, length_skipn. lia.
Qed.

Lemma view_fits_set (w v : view) (data buf : list R) :
  view_fits v buf = true ->
  view_fits w (view_set v data buf) = view_fits w buf.
Proof.
  intros H. unfold view_fits. now rewrite view_set_length.
Qed.

(** A write through a view leaves what lies before the view alone. *)
Lemma view_get_set_before (w v : view) (data buf : list R) :
  (offset w + view_n_elem w <= offset v)%N ->
  view_fits v buf = true ->
  view_get w (view_set v data buf) = view_get w buf.
Proof.
  intros Hwv Hv. unfold view_fits in Hv. apply N.leb_le in Hv.
  unfold view_get, view_set.
  set (o := N.to_nat (offset w)). set (n := N.to_nat (view_n_elem w)).
  set (a := N.to_nat (offset v)).
  assert (Ha : (o + n <= a <= length buf)%nat) by (subst o n a; lia).
  rewrite skipn_app, firstn_app, length_skipn, length_firstn.
  replace (n - (Nat.min a (length buf) - o))%nat with 0%nat by lia.
  rewrite firstn_O, app_nil_r, skipn_firstn_comm, firstn_firstn.
  f_equal. lia.
Qed.

Lemma firstn_skipn_repeat {A : Type} (x : A) (o n k : nat) :
  (o + n <= k)%nat -> firstn n (skipn o (repeat x k)) = repeat x n.
Proof.
  intros H.
  replace k with (o + (n + (k - o - n)))%nat by lia.
  rewrite !repeat_app, skipn_app, repeat_length, Nat.sub_diag.
  rewrite skipn_all2 by (rewrite repeat_length; lia). simpl.
  rewrite firstn_app, repeat_length, Nat.sub_diag, firstn_O, app_nil_r.
  apply firstn_all2. rewrite repeat_length. lia.
Qed.

Lemma view_get_zeros (v : view) (k : nat) :
  view_fits v (zeros k) = true ->
  view_get v (zeros k) = zeros (N.to_nat (view_n_elem v)).
Proof.
  unfold view_fits, view_get, zeros. rewrite repeat_length.
  intros H. apply N.leb_le in H.
  apply firstn_skipn_repeat. lia.
Qed.

Lemma set_cols_inv (first last : N) (x m m' : mat) :
  set_cols first last x m = Some m' ->
  m' = firstn (N.to_nat first) m ++ x
       ++ skipn (N.to_nat first + n_cols x) m
  /\ (N.to_nat first + n_cols x <= n_cols m)%nat
  /\ (first <= last)%N
  /\ N.of_nat (n_cols x) = (last - first + 1)%N
  /\ (N.of_nat (n_cols m) <= SizeT.size_max)%N.
Proof.
  unfold set_cols, cols_in_range.
  destruct (_ && _) eqn:E; [ | discriminate ].
  intros H; inversion H; subst m'; clear H.
  rewrite !andb_true_iff in E.
  destruct E as [[[[H1 H2] H3] H4] _].
  apply N.leb_le in H1, H3. apply N.ltb_lt in H2. apply N.eqb_eq in H4.
  repeat split; auto. lia.
Qed.

(** After [M.cols(first, last) = X], the range reads [X] and the
    columns around it are the old ones. *)
Lemma set_cols_reads (first last : N) (x m m' : mat) :
  set_cols first last x m = Some m' ->
  firstn (n_cols x) (skipn (N.to_nat first) m') = x
  /\ firstn (N.to_nat first) m' = firstn (N.to_nat first) m
  /\ skipn (N.to_nat first + n_cols x) m'
     = skipn (N.to_nat first + n_cols x) m
  /\ n_cols m' = n_cols m.
Proof.
  intros H. destruct (set_cols_inv _ _ _ _ _ H) as (-> & Hle & _).
  unfold n_cols in *.
  assert (Hf : length (firstn (N.to_nat first) m) = N.to_nat first)
    by (rewrite length_firstn; lia).
  repeat split.
  - rewrite skipn_app, Hf, Nat.sub_diag, skipn_all2 by lia. simpl.
    rewrite firstn_app, Nat.sub_diag, firstn_all. simpl.
    now rewrite app_nil_r.
  - rewrite firstn_app, Hf, Nat.sub_diag, firstn_O, app_nil_r.
    apply firstn_all2. lia.
  - rewrite app_assoc, skipn_app, length_app, Hf.
    rewrite skipn_all2 by (rewrite length_app; lia).
    rewrite Nat.sub_diag. reflexivity.
  - rewrite !length_app, Hf, length_skipn. lia.
Qed.

Lemma filled_n_cols (r c : nat) (x : R) : n_cols (filled r c x) = c.
Proof. apply repeat_length. Qed.

End BufferFacts.

(* ================================================================= *)
(** ** Stepping through the engine *)

(** Reduces the members of a state that is written as a chain of
    updates. *)
Ltac members_in H :=
  unfold weights, bound, lastGenerated in H;
  cbn
    [bind guard fst snd
     predictors responses generator discriminator noiseDim numFunctions
     batchSize currentBatch generatorUpdateStep preTrainSize multiplier
     clippingParameter lambda reset deterministic parameter noise genWeights
     discWeights realLabel fakeLabel gradientGenerator gradientDiscriminator
     noiseGradientDiscriminator entropy
     with_predictors with_responses with_generator with_discriminator
     with_numFunctions with_currentBatch with_preTrainSize with_reset
     with_deterministic with_parameter with_noise with_genWeights
     with_discWeights with_realLabel with_fakeLabel with_gradientGenerator
     with_gradientDiscriminator with_noiseGradientDiscriminator with_entropy
     FFN.network FFN.parameter FFN.predictors FFN.responses FFN.deterministic
     FFN.error FFN.with_network FFN.with_parameter FFN.with_predictors
     FFN.with_responses FFN.with_deterministic FFN.with_error
     Arma.offset Arma.view_n_elem]
    in H.

Ltac members :=
  unfold weights, bound, lastGenerated;
  cbn
    [bind guard fst snd
     predictors responses generator discriminator noiseDim numFunctions
     batchSize currentBatch generatorUpdateStep preTrainSize multiplier
     clippingParameter lambda reset deterministic parameter noise genWeights
     discWeights realLabel fakeLabel gradientGenerator gradientDiscriminator
     noiseGradientDiscriminator entropy
     with_predictors with_responses with_generator with_discriminator
     with_numFunctions with_currentBatch with_preTrainSize with_reset
     with_deterministic with_parameter with_noise with_genWeights
     with_discWeights with_realLabel with_fakeLabel with_gradientGenerator
     with_gradientDiscriminator with_noiseGradientDiscriminator with_entropy
     FFN.network FFN.parameter FFN.predictors FFN.responses FFN.deterministic
     FFN.error FFN.with_network FFN.with_parameter FFN.with_predictors
     FFN.with_responses FFN.with_deterministic FFN.with_error
     Arma.offset Arma.view_n_elem].

(** One statement of a method body that returned: the call it makes
    returned too. *)
Ltac step H :=
  match type of H with
  | bind ?c _ = Some _ =>
      let E := fresh "E" in destruct c eqn:E; [ | discriminate H]
  | (let (_, _) := ?p in _) = Some _ =>
      tryif is_var p then destruct p
      else (let E := fresh "E" in destruct p eqn:E)
  end; members_in H.

Ltac steps H := members_in H; repeat step H.

(** Rewrites the members of [s'] into those of [s]. *)
Ltac carry F :=
  let F' := fresh "F" in
  let e1 := fresh "e" in let e2 := fresh "e" in let e3 := fresh "e" in
  let e4 := fresh "e" in let e5 := fresh "e" in let e6 := fresh "e" in
  let e7 := fresh "e" in let e8 := fresh "e" in let e9 := fresh "e" in
  let e10 := fresh "e" in let e11 := fresh "e" in let e12 := fresh "e" in
  let e13 := fresh "e" in let e14 := fresh "e" in let e15 := fresh "e" in
  pose proof F as F'; unfold untouched in F';
  destruct F' as (e1 & e2 & e3 & e4 & e5 & e6 & e7 & e8 & e9 & e10 & e11
                  & e12 & e13 & e14 & e15);
  rewrite ?e1, ?e2, ?e3, ?e4, ?e5, ?e6, ?e7, ?e8, ?e9, ?e10, ?e11, ?e12,
    ?e13, ?e14, ?e15 in *;
  clear e1 e2 e3 e4 e5 e6 e7 e8 e9 e10 e11 e12 e13 e14 e15.

Section EngineFacts.

Context {L : Layers} {C : Collaborators L}.
Import Arma.
Open Scope N_scope.

Lemma untouched_refl (s : GAN) : untouched s s.
Proof. unfold untouched; repeat split. Qed.

Lemma untouched_trans (a b c : GAN) :
  untouched a b -> untouched b c -> untouched a c.
Proof.
  unfold untouched; intros H1 H2.
  decompose [and] H1; decompose [and] H2; clear H1 H2.
  repeat split; congruence.
Qed.

Lemma ResetDeterministic_untouched (s : GAN) :
  untouched s (ResetDeterministic s).
Proof. unfold untouched, ResetDeterministic; members; repeat split. Qed.

Lemma trainingMode_untouched (s : GAN) : untouched s (trainingMode s).
Proof.
  unfold trainingMode. destruct (deterministic s).
  - unfold untouched, ResetDeterministic; members; repeat split.
  - apply untouched_refl.
Qed.

Lemma inferenceMode_untouched (s : GAN) : untouched s (inferenceMode s).
Proof.
  unfold inferenceMode. destruct (negb (deterministic s)).
  - unfold untouched, ResetDeterministic; members; repeat split.
  - apply untouched_refl.
Qed.

Lemma Reset_untouched (s s' : GAN) : Reset s = Some s' -> untouched s s'.
Proof.
  unfold Reset. intros H. steps H.
  inversion H; subst s'. unfold untouched; members; repeat split.
Qed.

Lemma Reset_if_empty_untouched (s s' : GAN) :
  Reset_if_empty s = Some s' -> untouched s s'.
Proof.
  unfold Reset_if_empty. destruct (is_empty (parameter s)).
  - apply Reset_untouched.
  - intros H; inversion H; apply untouched_refl.
Qed.

End EngineFacts.

Section TrainingStep.

Context {L : Layers} {C : Collaborators L}.
Import Arma.
Open Scope N_scope.

Lemma rem_inv (a b n : N) :
  SizeT.rem a b = Some n -> b <> 0 /\ n = a mod b.
Proof.
  unfold SizeT.rem. destruct (b =? 0) eqn:Z; [ discriminate | ].
  apply N.eqb_neq in Z. intros H; inversion H; auto.
Qed.

Lemma guard_inv (c : bool) (u : unit) : guard c = Some u -> c = true.
Proof. destruct c; [ reflexivity | discriminate ]. Qed.

Lemma relabelled (first last : N) (n : nat) (x : R) (m m' : mat) :
  set_cols first last (filled 1 n x) m = Some m' ->
  firstn n (skipn (N.to_nat first) m') = filled 1 n x.
Proof.
  intros H. apply set_cols_reads in H. destruct H as [H _].
  now rewrite filled_n_cols in H.
Qed.

(** The first two statements of [EvaluateWithGradient]. *)
Lemma zeroed_gradient (gradient l : list R) (s0 s1 : GAN) :
  (if is_empty gradient
   then bind (Reset_if_empty s0)
          (fun s => Some (zeros (length (parameter s)), s))
   else Some (zeros (length gradient), s0)) = Some (l, s1) ->
  untouched s0 s1 /\ exists k, l = zeros k.
Proof.
  destruct (is_empty gradient).
  - intros H. step H. inversion H; subst.
    split; [ now apply Reset_if_empty_untouched | eauto ].
  - intros H; inversion H; subst.
    split; [ apply untouched_refl | eauto ].
Qed.

(** The generator step relabels the generated slice and writes the
    counters and the configuration not at all. *)
Lemma generatorStep_inv (gradient g' : list R) (s s' : GAN) :
  generatorStep gradient s = Some (g', s') ->
  set_cols (numFunctions s) (lastGenerated s)
           (filled 1 (N.to_nat (batchSize s)) (realLabel s)) (responses s)
  = Some (responses s')
  /\ numFunctions s' = numFunctions s /\ batchSize s' = batchSize s
  /\ realLabel s' = realLabel s /\ fakeLabel s' = fakeLabel s
  /\ currentBatch s' = currentBatch s /\ preTrainSize s' = preTrainSize s
  /\ gradientGenerator s' = gradientGenerator s.
Proof.
  unfold generatorStep. intros H. steps H.
  inversion H; subst; members. unfold lastGenerated.
  repeat split; auto.
Qed.

(** The calls of [EvaluateWithGradient] up to the gate: the engine in
    training mode has the data of [s]. *)
Ltac upto_gate H s F :=
  unfold EvaluateWithGradient in H; steps H;
  match goal with
  | E : Reset_if_empty s = Some ?s0,
    Z : (if is_empty _ then _ else _) = Some (_, ?s1) |- _ =>
      apply Reset_if_empty_untouched in E;
      apply zeroed_gradient in Z;
      let k := fresh "k" in
      destruct Z as [Z [k ->]];
      pose proof (untouched_trans _ _ _ (untouched_trans _ _ _ E Z)
                    (trainingMode_untouched s1)) as F;
      clear E Z
  end;
  match goal with
  | E : SizeT.rem _ _ = Some _ |- _ =>
      apply rem_inv in E; destruct E as [_ ->]
  end.

(** What one call does to the two counters. *)
Lemma EvaluateWithGradient_counters
    (p : list R) (i : N) (g : list R) (b : N) (s : GAN)
    (res : R) (g' : list R) (s' : GAN) :
  EvaluateWithGradient p i g b s = Some (res, g', s') ->
  currentBatch s' = SizeT.incr (currentBatch s)
  /\ preTrainSize s' = preTrainSize s - 1.
Proof.
  intros H. upto_gate H s F.
  match goal with
  | G : (if _ then generatorStep _ _ else _) = Some (_, ?s2) |- _ =>
      assert (K : currentBatch s2 = currentBatch s
                  /\ preTrainSize s2 = preTrainSize s);
      [ destruct (_ && _) in G;
        [ apply generatorStep_inv in G; members_in G; carry F; tauto
        | inversion G; subst s2; members; carry F; split; reflexivity ]
      | destruct K as [Kc Kp]; clear G ]
  end.
  inversion H; subst s'; clear H.
  match goal with
  | |- context [if ?c then _ else _] => destruct c eqn:P
  end; members; rewrite Kc, Kp.
  - split; reflexivity.
  - split; [ reflexivity | ]. rewrite Kp in P.
    apply N.ltb_ge in P. lia.
Qed.

(** C1.  On every call of [EvaluateWithGradient] that returns and on
    which the gate [currentBatch % generatorUpdateStep == 0 &&
    preTrainSize == 0] is closed, the generator segment of the gradient
    handed back, the entries [gradientGenerator] aliases, is all zero;
    that segment starts at 0 and has as many entries as the generator
    has parameters.  So the generator segment is written on gated calls
    only. *)
Theorem EvaluateWithGradient_generator_gradient_gated
    (p : list R) (i : N) (g : list R) (b : N) (s : GAN)
    (res : R) (g' : list R) (s' : GAN) :
  EvaluateWithGradient p i g b s = Some (res, g', s') ->
  gate s = false ->
  view_get (gradientGenerator s') g'
  = zeros (N.to_nat (view_n_elem (gradientGenerator s')))
  /\ gradientGenerator s'
     = {| offset := 0;
          view_n_elem := view_n_elem (FFN.parameter (generator s')) |}.
Proof.
  unfold gate. intros H Hgate. upto_gate H s F.
  match goal with
  | E : guard (_ && _) = Some _ |- _ =>
      apply guard_inv in E; apply andb_true_iff in E;
      destruct E as [FG FD]
  end.
  match goal with
  | G : (if _ then generatorStep _ _ else _) = Some (?l, ?s2) |- _ =>
      revert G; carry F; rewrite Hgate; intros G;
      inversion G; subst s2 l; clear G
  end.
  inversion H; subst s' g'; clear H.
  match type of F with
  | untouched _ ?t =>
      assert (K : forall v w,
                 view_get
                   {| offset := 0;
                      view_n_elem :=
                        view_n_elem (FFN.parameter (generator t)) |}
                   (view_set
                      {| offset :=
                           view_n_elem (FFN.parameter (generator t));
                         view_n_elem :=
                           view_n_elem (FFN.parameter (discriminator t))
                      |} w
                      (view_set
                         {| offset :=
                              view_n_elem (FFN.parameter (generator t));
                            view_n_elem :=
                              view_n_elem
                                (FFN.parameter (discriminator t)) |}
                         v (zeros k)))
                 = zeros (N.to_nat
                            (view_n_elem (FFN.parameter (generator t)))))
  end.
  { intros v w.
    rewrite !view_get_set_before;
      [ exact (view_get_zeros _ _ FG)
      | cbn [offset view_n_elem]; lia
      | exact FD
      | cbn [offset view_n_elem]; lia
      | now rewrite view_fits_set ]. }
  match goal with
  | |- context [if ?c then _ else _] => destruct c
  end; members; (split; [ apply K | reflexivity ]).
Qed.

(** C2.  After every call of [EvaluateWithGradient] that returns, the
    labels of the generated slice, columns [numFunctions, numFunctions +
    batchSize) of [responses], are all [fakeLabel] when the gate of the
    call was closed and all [realLabel] when it was taken; the latter
    stay until the next call relabels the slice. *)
Theorem EvaluateWithGradient_generated_labels
    (p : list R) (i : N) (g : list R) (b : N) (s : GAN)
    (res : R) (g' : list R) (s' : GAN) :
  EvaluateWithGradient p i g b s = Some (res, g', s') ->
  generatedLabels s'
  = filled 1 (N.to_nat (batchSize s'))
           (if gate s then realLabel s' else fakeLabel s')
  /\ numFunctions s' = numFunctions s /\ batchSize s' = batchSize s
  /\ realLabel s' = realLabel s /\ fakeLabel s' = fakeLabel s.
Proof.
  unfold gate, generatedLabels. intros H. upto_gate H s F.
  match goal with
  | E : set_cols _ _ (filled _ _ _) _ = Some _ |- _ =>
      apply relabelled in E; rename E into Fake
  end.
  match goal with
  | G : (if _ then generatorStep _ _ else _) = Some (_, ?s2) |- _ =>
      assert (K : firstn (N.to_nat (batchSize s))
                    (skipn (N.to_nat (numFunctions s)) (responses s2))
                  = filled 1 (N.to_nat (batchSize s))
                      (if (currentBatch s mod generatorUpdateStep s =? 0)
                          && (preTrainSize s =? 0)
                       then realLabel s else fakeLabel s)
                  /\ numFunctions s2 = numFunctions s
                  /\ batchSize s2 = batchSize s
                  /\ realLabel s2 = realLabel s
                  /\ fakeLabel s2 = fakeLabel s);
      [ revert G Fake; carry F; intros G Fake;
        destruct (_ && _) in G |- *;
        [ apply generatorStep_inv in G; members_in G;
          destruct G as (Real & -> & -> & -> & -> & _);
          apply relabelled in Real; carry F; auto
        | inversion G; subst s2; members; carry F; auto ]
      | destruct K as (K1 & K2 & K3 & K4 & K5); clear G Fake ]
  end.
  inversion H; subst s'; clear H.
  match goal with
  | |- context [if 0 <? ?c then _ else _] => destruct (0 <? c)
  end; members; rewrite K2, K3, K4, K5; auto.
Qed.

(** C4.  Along every run of [EvaluateWithGradient] calls that return,
    [preTrainSize] goes down by one per call while it is positive and
    then stays at zero (the subtraction on [N] stops at 0), and
    [currentBatch] goes up by exactly one per call.  The step counter is
    a [size_t] that the constructor and [ResetData] set to 0 and that
    nothing but [currentBatch++] writes: it counts the calls made, and
    the count fits a [size_t] on every run, which is the hypothesis. *)
Theorem EvaluateWithGradient_run_counters
    (calls : list (list R * N * list R * N)) (s s' : GAN) :
  currentBatch s + N.of_nat (length calls) <= SizeT.size_max ->
  EvaluateWithGradient_run calls s = Some s' ->
  preTrainSize s' = preTrainSize s - N.of_nat (length calls)
  /\ currentBatch s' = currentBatch s + N.of_nat (length calls).
Proof.
  revert s; induction calls as [|[[[p i] g] b] rest IH]; intros s Hs H.
  - inversion H; subst s'. cbn [length N.of_nat].
    now rewrite N.sub_0_r, N.add_0_r.
  - cbn [EvaluateWithGradient_run] in H.
    destruct (EvaluateWithGradient p i g b s) as [[[res g'] s1]|] eqn:E;
      [ | discriminate ].
    cbn [bind] in H. cbn [length] in Hs.
    apply EvaluateWithGradient_counters in E. destruct E as [Ec Ep].
    assert (Inc : currentBatch s1 = currentBatch s + 1).
    { rewrite Ec. unfold SizeT.incr, SizeT.add, SizeT.wrap.
      apply N.mod_small. unfold SizeT.size_max, SizeT.modulus in *. lia. }
    assert (H1 : currentBatch s1 + N.of_nat (length rest)
                 <= SizeT.size_max) by lia.
    destruct (IH s1 H1 H) as [IHp IHc].
    rewrite IHp, IHc, Ep, Inc. cbn [length]. split; lia.
Qed.

(** C8.  [Gradient] is [EvaluateWithGradient] with the loss dropped:
    from the same engine and with the same arguments, it hands back the
    same gradient and leaves the same engine, and it faults exactly when
    [EvaluateWithGradient] does. *)
Theorem Gradient_is_EvaluateWithGradient
    (p : list R) (i : N) (g : list R) (b : N) (s : GAN) :
  Gradient p i g b s
  = option_map (fun r => (snd (fst r), snd r))
               (EvaluateWithGradient p i g b s).
Proof.
  unfold Gradient.
  destruct (EvaluateWithGradient p i g b s) as [[[res g'] s']|];
    reflexivity.
Qed.

End TrainingStep.

Section LossOnly.

Context {L : Layers} {C : Collaborators L}.
Import Arma.
Open Scope N_scope.

Lemma inferenceMode_entropy (s : GAN) :
  entropy (inferenceMode s) = entropy s.
Proof.
  unfold inferenceMode, ResetDeterministic.
  destruct (negb (deterministic s)); reflexivity.
Qed.

(** The mode test that [Evaluate] and [Predict] make a second time finds
    the engine in inference mode. *)
Lemma inferenceMode_twice (s : GAN) :
  inferenceMode (inferenceMode s) = inferenceMode s.
Proof.
  unfold inferenceMode at 1.
  assert (D : deterministic (inferenceMode s) = true).
  { unfold inferenceMode. destruct (deterministic s) eqn:E; cbn [negb].
    - exact E.
    - unfold ResetDeterministic; members; reflexivity. }
  now rewrite D.
Qed.

Lemma map_seq_from {A : Type} (f : nat -> A) (a b : nat) :
  map f (seq a b) = map (fun k => f (a + k)%nat) (seq 0 b).
Proof.
  revert f; induction a as [|a IH]; intros f.
  - reflexivity.
  - rewrite <- seq_shift, map_map, IH. reflexivity.
Qed.

Lemma drawn_add (a k : nat) (g : Rng) :
  drawn (a + k) g = drawn k (drawn a g).
Proof.
  revert g; induction a as [|a IH]; intros g; simpl; auto.
Qed.

(** [imbue] on a column: the entries are the values of successive calls
    of [noiseFunction()]. *)
Lemma imbue_col_drawn (n : nat) (g : Rng) :
  imbue_col n g
  = (map (fun k => fst (noiseFunction (drawn k g))) (seq 0 n), drawn n g).
Proof.
  revert g; induction n as [|n IH]; intros g; [ reflexivity | ].
  cbn [imbue_col]. destruct (noiseFunction g) as [x g1] eqn:E.
  rewrite IH. cbn [seq map drawn]. rewrite E. cbn [fst snd].
  rewrite <- seq_shift, map_map. do 2 f_equal.
  apply map_ext. intros k. cbn [drawn]. now rewrite E.
Qed.

(** [imbue] on a matrix keeps its shape and fills it, column by column,
    with the values of successive calls of [noiseFunction()]. *)
Lemma imbue_drawn (m : mat) (g : Rng) :
  map (@length R) (fst (imbue m g)) = map (@length R) m
  /\ concat (fst (imbue m g))
     = map (fun k => fst (noiseFunction (drawn k g)))
           (seq 0 (length (concat m)))
  /\ snd (imbue m g) = drawn (length (concat m)) g.
Proof.
  revert g; induction m as [|c m IH]; intros g.
  - repeat split.
  - cbn [imbue]. rewrite imbue_col_drawn.
    destruct (imbue m (drawn (length c) g)) as [cs g2] eqn:E.
    specialize (IH (drawn (length c) g)). rewrite E in IH.
    cbn [fst snd] in IH. destruct IH as (Shape & Entries & State).
    cbn [fst snd map concat]. rewrite length_app, seq_app, map_app.
    rewrite length_map, length_seq, Shape, Entries, State.
    repeat split.
    + f_equal. cbn [Nat.add].
      rewrite (map_seq_from _ (length c)).
      apply map_ext. intros k. now rewrite drawn_add.
    + now rewrite drawn_add.
Qed.

(** C10.  [Evaluate] computes no gradient and still writes the engine.
    On every call that returns:
    - the noise matrix is drawn afresh: it keeps its shape, and its
      entries, column by column, are the values of as many successive
      calls of [noiseFunction()], which leave the random number generator
      advanced by that many calls;
    - the generator is run forward on that noise, and the
      generator-reserved columns of [predictors] hold the output its last
      layer has then;
    - the labels of those columns are [fakeLabel] whatever they were
      before;
    - the two counters are as they were. *)
Theorem Evaluate_refreshes_generated_slice (p : list R) (i b : N) (s : GAN) (res : R) (s' : GAN) :
  Evaluate p i b s = Some (res, s') ->
  exists s1 gback,
    Reset_if_empty s = Some s1
    /\ noise s' = fst (imbue (noise s) (entropy s1))
    /\ entropy s' = snd (imbue (noise s) (entropy s1))
    /\ map (@length R) (noise s') = map (@length R) (noise s)
    /\ concat (noise s')
       = map (fun k => fst (noiseFunction (drawn k (entropy s1))))
             (seq 0 (length (concat (noise s))))
    /\ entropy s' = drawn (length (concat (noise s))) (entropy s1)
    /\ FFN_Forward (generator (inferenceMode s1))
                   (weights (inferenceMode s1)
                            (generator (inferenceMode s1)))
                   (noise s')
       = Some (FFN.network (generator s'))
    /\ back (FFN.network (generator s')) = Some gback
    /\ generatedColumns s' = outputParameterVisitor gback
    /\ generatedLabels s'
       = filled 1 (N.to_nat (batchSize s')) (fakeLabel s')
    /\ numFunctions s' = numFunctions s /\ batchSize s' = batchSize s
    /\ fakeLabel s' = fakeLabel s
    /\ currentBatch s' = currentBatch s
    /\ preTrainSize s' = preTrainSize s.
Proof.
  unfold Evaluate, generatedColumns, generatedLabels. intros H. steps H.
  rewrite !inferenceMode_twice in *.
  pose proof (Reset_if_empty_untouched _ _ E) as F0.
  match goal with
  | E : imbue _ _ = _ |- _ =>
      rewrite !inferenceMode_entropy in E; rename E into I
  end.
  match goal with
  | E : set_cols _ _ (filled _ _ _) _ = Some _ |- _ => rename E into Fake
  end.
  match goal with
  | E : set_cols _ _ (outputParameterVisitor ?gb) _ = Some _,
    B : back _ = Some ?gb |- _ =>
      rename E into Out; exists g, gb
  end.
  match goal with
  | E : FFN_Forward (generator _) _ ?m = Some _ |- _ => rename E into Fw
  end.
  inversion H; subst s'; clear H. members.
  pose proof (set_cols_inv _ _ _ _ _ Out) as (_ & _ & _ & NO & _).
  pose proof (set_cols_inv _ _ _ _ _ Fake) as (_ & _ & _ & NF & _).
  rewrite filled_n_cols in NF.
  apply set_cols_reads in Out. destruct Out as [Out _].
  match type of Out with
  | firstn ?n _ = _ =>
      replace n
        with (N.to_nat (batchSize (inferenceMode g)))
        in Out by lia
  end.
  apply relabelled in Fake.
  pose proof (untouched_trans _ _ _ F0 (inferenceMode_untouched g)) as F.
  revert I Out Fake Fw. carry F. intros I Out Fake Fw.
  pose proof (imbue_drawn (noise s) (entropy g)) as (Shape & Entries & State).
  rewrite I in *. cbn [fst snd] in *.
  repeat split; auto.
Qed.

End LossOnly.

Section Arena.

Context {L : Layers} {C : Collaborators L}.
Import Arma.
Open Scope N_scope.

Lemma wrap_small (n : N) : n <= SizeT.size_max -> SizeT.wrap n = n.
Proof.
  unfold SizeT.wrap, SizeT.size_max. intros H.
  apply N.mod_small. unfold SizeT.modulus in *. lia.
Qed.

Lemma wrap_bound (n : N) : SizeT.wrap n <= SizeT.size_max.
Proof.
  unfold SizeT.wrap, SizeT.size_max.
  assert (n mod SizeT.modulus < SizeT.modulus)
    by (apply N.mod_lt; discriminate).
  lia.
Qed.

(** The counting loop computes the number of weights modulo 2^64. *)
Lemma count_weights_from (net : list Layer) (acc : N) :
  fold_left (fun a l => SizeT.add a (weightSizeVisitor l)) net
            (SizeT.wrap acc)
  = SizeT.wrap (acc + weight_total net).
Proof.
  revert acc; induction net as [|l net IH]; intros acc; simpl.
  - now rewrite N.add_0_r.
  - replace (SizeT.add (SizeT.wrap acc) (weightSizeVisitor l))
      with (SizeT.wrap (acc + weightSizeVisitor l))
      by (unfold SizeT.add, SizeT.wrap;
          now rewrite N.Div0.add_mod_idemp_l).
    rewrite IH. f_equal. unfold weight_total. simpl. lia.
Qed.

Lemma count_weights_total (net : list Layer) :
  count_weights net = SizeT.wrap (weight_total net).
Proof.
  unfold count_weights.
  change 0 with (SizeT.wrap 0) at 1. now rewrite count_weights_from.
Qed.

Lemma set_size_vec_length (n : N) (old : list R) :
  N.of_nat (length (set_size_vec n old)) = n.
Proof.
  unfold set_size_vec. destruct (N.eqb_spec (N.of_nat (length old)) n).
  - assumption.
  - rewrite repeat_length. lia.
Qed.

Lemma two_views_cover (p : list R) (a b : N) :
  N.of_nat (length p) = a + b ->
  p = view_get {| offset := 0; view_n_elem := a |} p
      ++ view_get {| offset := a; view_n_elem := b |} p.
Proof.
  intros H. unfold view_get; cbn [offset view_n_elem].
  change (N.to_nat 0) with 0%nat. rewrite skipn_O.
  rewrite (firstn_all2 (n := N.to_nat b))
    by (rewrite length_skipn; lia).
  symmetry. apply firstn_skipn.
Qed.

(** What [Reset] establishes. *)
Lemma Reset_inv (s s' : GAN) :
  Reset s = Some s' ->
  arena_layout s'
  /\ genWeights s' = weight_total (FFN.network (generator s))
  /\ discWeights s' = weight_total (FFN.network (discriminator s))
  /\ reset s' = true.
Proof.
  unfold Reset. intros H. steps H.
  match goal with
  | E : guard _ = Some _ |- _ =>
      apply guard_inv in E; apply N.leb_le in E; rename E into Fit
  end.
  inversion H; subst s'; clear H.
  rewrite !count_weights_total.
  set (gw := weight_total (FFN.network (generator s))) in *.
  set (dw := weight_total (FFN.network (discriminator s))) in *.
  assert (Hg : SizeT.wrap gw = gw) by (apply wrap_small; lia).
  assert (Hd : SizeT.wrap dw = dw) by (apply wrap_small; lia).
  assert (Hl : N.of_nat
                 (length
                    (overlay
                       (overlay
                          (set_size_vec (SizeT.add (SizeT.wrap gw)
                                                   (SizeT.wrap dw))
                                        (parameter s)) l0) l2))
               = gw + dw).
  { rewrite !overlay_length, set_size_vec_length, Hg, Hd.
    unfold SizeT.add. apply wrap_small. lia. }
  unfold arena_layout, weights. members. rewrite Hg, Hd in *.
  repeat split; auto. now apply two_views_cover.
Qed.

(** [ResetData] resets the parameters when the latch is clear and
    leaves them alone when it is set. *)
Lemma ResetData_inv (trainData : mat) (realLabel fakeLabel : R)
    (s s' : GAN) :
  ResetData trainData realLabel fakeLabel s = Some s' ->
  (reset s = false ->
     exists s0,
       Reset s0 = Some s'
       /\ FFN.network (generator s0)
          = FFN.network
              (generator (ResetDeterministic (with_deterministic true s)))
       /\ FFN.network (discriminator s0)
          = FFN.network
              (discriminator
                 (ResetDeterministic (with_deterministic true s))))
  /\ (reset s = true ->
        parameter s' = parameter s
        /\ FFN.parameter (generator s') = FFN.parameter (generator s)
        /\ FFN.parameter (discriminator s')
           = FFN.parameter (discriminator s)
        /\ genWeights s' = genWeights s
        /\ discWeights s' = discWeights s
        /\ entropy s' = entropy s
        /\ reset s' = true).
Proof.
  unfold ResetData. intros H. steps H.
  unfold ResetDeterministic in H. members_in H.
  destruct (reset s) eqn:Latch; cbn [negb] in H.
  - inversion H; subst s'; clear H. split; [ discriminate | ].
    intros _. members. repeat split; auto.
  - split; [ | discriminate ]. intros _.
    eexists. split; [ exact H | ].
    unfold ResetDeterministic. members. split; reflexivity.
Qed.

(** C3.  After [ResetData], from an engine whose latch is clear or
    whose parameter buffer is laid out already, the parameter buffer
    has [genWeights + discWeights] entries, the generator's view is
    [0, genWeights), the discriminator's is [genWeights, genWeights +
    discWeights), and the two views together are the buffer; when the
    latch was clear, the two counts are the sums of the weight sizes of
    the layers of the two networks. *)
Theorem ResetData_arena_partition (trainData : mat)
    (realLabel fakeLabel : R) (s s' : GAN) :
  ResetData trainData realLabel fakeLabel s = Some s' ->
  reset s = false \/ arena_layout s ->
  arena_layout s'
  /\ (reset s = false ->
        genWeights s'
        = weight_total
            (FFN.network
               (generator (ResetDeterministic (with_deterministic true s))))
        /\ discWeights s'
           = weight_total
               (FFN.network
                  (discriminator
                     (ResetDeterministic (with_deterministic true s))))).
Proof.
  intros H V. apply ResetData_inv in H. destruct H as [Unlatched Latched].
  destruct (reset s) eqn:Latch.
  - destruct V as [V|V]; [ discriminate | ].
    split; [ | discriminate ].
    destruct (Latched eq_refl) as (P & G & D & GW & DW & _ & _).
    unfold arena_layout, weights in *. rewrite P, G, D, GW, DW.
    exact V.
  - destruct (Unlatched eq_refl) as (s0 & R0 & NG & ND).
    apply Reset_inv in R0. destruct R0 as (A & GW & DW & _).
    split; [ exact A | ]. intros _. now rewrite GW, DW, NG, ND.
Qed.

(** C9 (as amended).  [Reset] sets the latch, and the latch is what
    [ResetData] consults: once [Reset] has run, a later [ResetData]
    does not reset, it leaves the parameter buffer, the two views, the
    weights each sub-model reads and the two counts as they are.
    [Reset] itself runs the same whatever the latch holds. *)
Theorem ResetData_keeps_parameters_when_latched (trainData : mat)
    (realLabel fakeLabel : R) (s s1 s2 : GAN) :
  Reset s = Some s1 ->
  ResetData trainData realLabel fakeLabel s1 = Some s2 ->
  (forall latch, Reset (with_reset latch s1) = Reset s1)
  /\ reset s1 = true /\ reset s2 = true
  /\ parameter s2 = parameter s1
  /\ FFN.parameter (generator s2) = FFN.parameter (generator s1)
  /\ FFN.parameter (discriminator s2) = FFN.parameter (discriminator s1)
  /\ weights s2 (generator s2) = weights s1 (generator s1)
  /\ weights s2 (discriminator s2) = weights s1 (discriminator s1)
  /\ genWeights s2 = genWeights s1 /\ discWeights s2 = discWeights s1.
Proof.
  intros R1 R2. apply Reset_inv in R1. destruct R1 as (_ & _ & _ & Latch).
  apply ResetData_inv in R2. destruct R2 as [_ Latched].
  destruct (Latched Latch) as (P & G & D & GW & DW & _ & Latch').
  split; [ intros latch; reflexivity | ].
  unfold weights. rewrite P, G, D. repeat split; auto.
Qed.

End Arena.

Section Shuffling.

Context {L : Layers} {C : Collaborators L}.
Import Arma.
Open Scope N_scope.

Lemma cols_at_inv (indices : list N) (m picked : mat) :
  cols_at indices m = Some picked ->
  picked = map (fun i => nth (N.to_nat i) m []) indices.
Proof.
  revert picked; induction indices as [|i rest IH]; simpl; intros picked H.
  - now inversion H.
  - destruct (nth_error m (N.to_nat i)) as [c|] eqn:Hc; [ | discriminate ].
    destruct (cols_at rest m) as [cs|]; [ | discriminate ].
    inversion H; subst picked. f_equal; [ | now apply IH ].
    symmetry. now apply nth_error_nth.
Qed.

Lemma map_nth_seq (m : mat) (n : nat) :
  (n <= length m)%nat ->
  map (fun k => nth k m []) (seq 0 n) = firstn n m.
Proof.
  revert n; induction m as [|c m IH]; intros [|n] H; simpl in *;
    try reflexivity; try lia.
  f_equal. rewrite <- seq_shift, map_map. apply IH. lia.
Qed.

Lemma linspace_from_0_columns (m : mat) (n : N) :
  (N.to_nat n <= length m)%nat ->
  map (fun i => nth (N.to_nat i) m []) (linspace_from_0 n)
  = firstn (N.to_nat n) m.
Proof.
  intros H. unfold linspace_from_0. rewrite map_map.
  rewrite <- (map_nth_seq m _ H). apply map_ext.
  intros k. now rewrite Nat2N.id.
Qed.

(** C7.  [arma::shuffle] hands back a permutation of the vector it is
    given.  Then every call of [Shuffle] that returns has
    [numFunctions >= 1] and permutes the real-sample columns
    [0, numFunctions) of [predictors]: they are the same multiset of
    columns as before; every column from [numFunctions] on, the
    generator-reserved ones among them, is as it was. *)
Theorem Shuffle_permutes_real_columns (s s' : GAN) :
  (forall g l, Permutation (fst (arma_shuffle g l)) l) ->
  Shuffle s = Some s' ->
  Permutation (realColumns s') (realColumns s)
  /\ skipn (N.to_nat (numFunctions s)) (predictors s')
     = skipn (N.to_nat (numFunctions s)) (predictors s)
  /\ generatedColumns s' = generatedColumns s
  /\ numFunctions s' = numFunctions s /\ batchSize s' = batchSize s
  /\ 1 <= numFunctions s.
Proof.
  intros Perm. unfold Shuffle, realColumns, generatedColumns.
  specialize (Perm (entropy s) (linspace_from_0 (numFunctions s))).
  destruct (arma_shuffle (entropy s) (linspace_from_0 (numFunctions s)))
    as [ordering g]. cbn [fst] in Perm.
  intros H. steps H. inversion H; subst s'; clear H. members.
  match goal with
  | E : cols_at _ _ = Some _ |- _ => apply cols_at_inv in E; subst
  end.
  match goal with
  | E : set_cols _ _ _ _ = Some _ |- _ =>
      pose proof (set_cols_inv _ _ _ _ _ E) as (-> & Fit & _ & Width & _)
  end.
  assert (Len : n_cols (map (fun i => nth (N.to_nat i) (predictors s) [])
                            ordering)
                = N.to_nat (numFunctions s)).
  { unfold n_cols. rewrite length_map, (Permutation_length Perm).
    unfold linspace_from_0. now rewrite length_map, length_seq. }
  rewrite Len in *. unfold n_cols in *. change (N.to_nat 0) with 0%nat in *.
  cbn [firstn app Nat.add] in *.
  assert (Cols : Permutation
                   (map (fun i => nth (N.to_nat i) (predictors s) [])
                        ordering)
                   (firstn (N.to_nat (numFunctions s)) (predictors s))).
  { rewrite <- linspace_from_0_columns by lia.
    now apply Permutation_map. }
  repeat split.
  - rewrite firstn_app, Len, Nat.sub_diag, firstn_O, app_nil_r.
    rewrite firstn_all2 by (unfold n_cols in Len; lia). exact Cols.
  - rewrite skipn_app, Len, Nat.sub_diag.
    rewrite skipn_all2 by (unfold n_cols in Len; lia). reflexivity.
  - rewrite skipn_app, Len, Nat.sub_diag.
    rewrite skipn_all2 by (unfold n_cols in Len; lia). reflexivity.
  - unfold SizeT.sub, SizeT.wrap, SizeT.modulus in Width.
    destruct (N.eq_dec (numFunctions s) 0) as [Z|Z]; [ | lia ].
    rewrite Z in Width. vm_compute in Width. discriminate.
Qed.

End Shuffling.

(* ================================================================= *)
(** ** The metric on two points *)

Section Metric.

Import Arma FrechetDistance.
Open Scope R_scope.

(** Unfolds the matrix operations on explicit lists. *)
Ltac matrices :=
  cbv [cov trans rows row n_rows n_cols hd length seq map nth Nat.eqb
       sum_cols mdiv msub madd mscale mmul dot combine fst snd Rsum
       fold_right norm_val Nat.ltb Nat.leb Nat.sub mean_rows diag trace
       sqrt_elem norm2 INR] .

Lemma cov_two_points : cov (trans two_points) = [[8; 6]; [6; 9 / 2]].
Proof.
  unfold two_points. matrices.
  repeat (f_equal; try field).
Qed.

Lemma mean_two_points : mean_rows two_points = [2; 3 / 2].
Proof.
  unfold two_points. matrices. repeat (f_equal; try field).
Qed.

Lemma product_two_points :
  mmul [[8; 6]; [6; 9 / 2]] (trans [[8; 6]; [6; 9 / 2]])
  = [[100; 75]; [75; 225 / 4]].
Proof. matrices. repeat (f_equal; try field). Qed.

Lemma sqrt_100 : sqrt 100 = 10.
Proof. replace 100 with (10 * 10) by lra. apply sqrt_square. lra. Qed.

Lemma sqrt_225_4 : sqrt (225 / 4) = 15 / 2.
Proof.
  replace (225 / 4) with (15 / 2 * (15 / 2)) by lra.
  apply sqrt_square. lra.
Qed.

Lemma first_term_two_points :
  norm2 (map (fun q => fst q - snd q)
             (combine (mean_rows two_points) (mean_rows two_points))) = 0.
Proof.
  rewrite mean_two_points. matrices.
  replace ((2 - 2) * (2 - 2) + ((3 / 2 - 3 / 2) * (3 / 2 - 3 / 2) + 0))
    with 0 by lra.
  apply sqrt_0.
Qed.

Lemma Evaluate_two_points : Evaluate two_points two_points = -10.
Proof.
  unfold Evaluate. rewrite first_term_two_points, cov_two_points.
  rewrite product_two_points. matrices.
  rewrite sqrt_100, sqrt_225_4. lra.
Qed.

Lemma Evaluate_spec_two_points (a b c d : R) :
  Evaluate_spec [[a; c]; [b; d]] two_points two_points
  = 25 - 2 * (a + d).
Proof.
  unfold Evaluate_spec. rewrite first_term_two_points, cov_two_points.
  matrices. lra.
Qed.

Lemma square_root_shape (s : mat) :
  is_sqrtm s [[100; 75]; [75; 225 / 4]] ->
  exists a b c d,
    s = [[a; c]; [b; d]]
    /\ a * a + b * c = 100 /\ c * a + d * c = 75
    /\ a * b + b * d = 75 /\ c * b + d * d = 225 / 4.
Proof.
  intros (Hc & Hr & Hm). cbv [n_cols n_rows hd length] in Hc, Hr.
  destruct s as [|c1 [|c2 [|c3 s]]]; try discriminate.
  inversion Hr as [|? ? H1 Hr']; subst.
  inversion Hr' as [|? ? H2 _]; subst.
  destruct c1 as [|a [|c [|? ?]]]; try discriminate.
  destruct c2 as [|b [|d [|? ?]]]; try discriminate.
  exists a, b, c, d. split; [ reflexivity | ].
  revert Hm. matrices. intros Hm.
  inversion Hm. repeat split; lra.
Qed.

(** C5.  On the two points (0,0) and (4,3), whatever matrix square
    root of [Cov(P) * Cov(Q)^T] is put for [sqrtm], the principal one
    or another, the formula of the specification does not give the
    value [Evaluate] returns: the code takes the square root of every
    element. *)
Theorem Evaluate_differs_from_sqrtm_formula (s : mat) :
  is_sqrtm s (mmul (cov (trans two_points))
                   (trans (cov (trans two_points)))) ->
  Evaluate two_points two_points <> Evaluate_spec s two_points two_points.
Proof.
  rewrite cov_two_points, product_two_points. intros Hs.
  destruct (square_root_shape s Hs)
    as (a & b & c & d & -> & E1 & E2 & E3 & E4).
  rewrite Evaluate_two_points, Evaluate_spec_two_points. intros E.
  assert (T : a + d = 35 / 2) by lra.
  assert (B : b * (a + d) = 75) by lra.
  assert (K : c * (a + d) = 75) by lra.
  assert (A : (a - d) * (a + d) = 175 / 4) by lra.
  rewrite T in B, K, A.
  assert (b = 30 / 7) by lra. assert (c = 30 / 7) by lra.
  assert (a = 10) by lra.
  subst a b c. lra.
Qed.

(** C6.  [Evaluate(X, X)] on the two points (0,0) and (4,3) is -10,
    not 0. *)
Theorem Evaluate_self_is_not_zero :
  Evaluate two_points two_points = -10
  /\ Evaluate two_points two_points <> 0.
Proof. rewrite Evaluate_two_points. split; lra. Qed.

End Metric.

(* ================================================================= *)
(** ** The theorems on the small concrete engine *)

Section Runs.

Import Arma Toy.
Open Scope N_scope.

(** A training step during pretraining: the gate is closed. *)
Lemma pretraining_step_runs :
  EvaluateWithGradient [] 0 [] 0 (loaded 2 1)
  = Some (lossAfter (loaded 2 1), gradientAfter (loaded 2 1),
          engineAfter (loaded 2 1)).
Proof. vm_compute. reflexivity. Qed.

(** A training step with the gate taken. *)
Lemma gated_step_runs :
  EvaluateWithGradient [] 0 [] 0 (loaded 1 0)
  = Some (lossAfter (loaded 1 0), gradientAfter (loaded 1 0),
          engineAfter (loaded 1 0)).
Proof. vm_compute. reflexivity. Qed.

Lemma EvaluateWithGradient_generator_gradient_gated_witness :
  view_get (gradientGenerator (engineAfter (loaded 2 1)))
           (gradientAfter (loaded 2 1))
  = zeros (N.to_nat
             (view_n_elem (gradientGenerator (engineAfter (loaded 2 1)))))
  /\ gradientGenerator (engineAfter (loaded 2 1))
     = {| offset := 0;
          view_n_elem :=
            view_n_elem
              (FFN.parameter (generator (engineAfter (loaded 2 1)))) |}.
Proof.
  apply (EvaluateWithGradient_generator_gradient_gated
           [] 0 [] 0 (loaded 2 1) (lossAfter (loaded 2 1))).
  - vm_compute. reflexivity.
  - vm_compute. reflexivity.
Defined.

Lemma EvaluateWithGradient_generated_labels_witness :
  generatedLabels (engineAfter (loaded 1 0))
  = filled 1 (N.to_nat (batchSize (engineAfter (loaded 1 0))))
           (if gate (loaded 1 0)
            then realLabel (engineAfter (loaded 1 0))
            else fakeLabel (engineAfter (loaded 1 0)))
  /\ numFunctions (engineAfter (loaded 1 0)) = numFunctions (loaded 1 0)
  /\ batchSize (engineAfter (loaded 1 0)) = batchSize (loaded 1 0)
  /\ realLabel (engineAfter (loaded 1 0)) = realLabel (loaded 1 0)
  /\ fakeLabel (engineAfter (loaded 1 0)) = fakeLabel (loaded 1 0).
Proof.
  apply (EvaluateWithGradient_generated_labels
           [] 0 [] 0 (loaded 1 0) (lossAfter (loaded 1 0))
           (gradientAfter (loaded 1 0))).
  vm_compute. reflexivity.
Defined.

Lemma ResetData_arena_partition_witness :
  arena_layout (loaded 2 1)
  /\ (reset (fresh 2 1) = false ->
        genWeights (loaded 2 1)
        = weight_total
            (FFN.network
               (generator
                  (ResetDeterministic
                     (with_deterministic true (fresh 2 1)))))
        /\ discWeights (loaded 2 1)
           = weight_total
               (FFN.network
                  (discriminator
                     (ResetDeterministic
                        (with_deterministic true (fresh 2 1)))))).
Proof.
  apply (ResetData_arena_partition trainData 1%R 0%R (fresh 2 1)).
  - vm_compute. reflexivity.
  - left. reflexivity.
Defined.

Lemma EvaluateWithGradient_run_counters_witness :
  preTrainSize (force (loaded 2 1)
                      (EvaluateWithGradient_run twoCalls (loaded 2 1)))
  = preTrainSize (loaded 2 1) - N.of_nat (length twoCalls)
  /\ currentBatch (force (loaded 2 1)
                         (EvaluateWithGradient_run twoCalls (loaded 2 1)))
     = currentBatch (loaded 2 1) + N.of_nat (length twoCalls).
Proof.
  apply (EvaluateWithGradient_run_counters twoCalls (loaded 2 1)).
  - vm_compute. discriminate.
  - vm_compute. reflexivity.
Defined.

Lemma Shuffle_permutes_real_columns_witness :
  Permutation (realColumns (shuffled (loaded 1 0)))
              (realColumns (loaded 1 0))
  /\ skipn (N.to_nat (numFunctions (loaded 1 0)))
           (predictors (shuffled (loaded 1 0)))
     = skipn (N.to_nat (numFunctions (loaded 1 0)))
             (predictors (loaded 1 0))
  /\ generatedColumns (shuffled (loaded 1 0))
     = generatedColumns (loaded 1 0)
  /\ numFunctions (shuffled (loaded 1 0)) = numFunctions (loaded 1 0)
  /\ batchSize (shuffled (loaded 1 0)) = batchSize (loaded 1 0)
  /\ 1 <= numFunctions (loaded 1 0).
Proof.
  apply (Shuffle_permutes_real_columns (loaded 1 0)).
  - intros g l. simpl. apply Permutation_sym, Permutation_rev.
  - vm_compute. reflexivity.
Defined.

(** C9 does not hold as the specification states it: [Reset] does not
    consult the latch; called a second time with the latch set, it draws
    the weights again. *)
Lemma Reset_twice_redraws_the_weights :
  Reset (fresh 1 0) = Some onceReset
  /\ reset onceReset = true
  /\ Reset onceReset = Some twiceReset
  /\ parameter onceReset = [0%R; 1%R]
  /\ parameter twiceReset = [2%R; 3%R]
  /\ parameter twiceReset <> parameter onceReset.
Proof.
  assert (P1 : parameter onceReset = [0%R; 1%R]) by reflexivity.
  assert (P2 : parameter twiceReset = [2%R; 3%R]) by reflexivity.
  repeat split; try (vm_compute; reflexivity); auto.
  rewrite P1, P2. intros H. inversion H. lra.
Qed.

Lemma ResetData_keeps_parameters_when_latched_witness :
  (forall latch, Reset (with_reset latch onceReset) = Reset onceReset)
  /\ reset onceReset = true /\ reset (reloaded onceReset) = true
  /\ parameter (reloaded onceReset) = parameter onceReset
  /\ FFN.parameter (generator (reloaded onceReset))
     = FFN.parameter (generator onceReset)
  /\ FFN.parameter (discriminator (reloaded onceReset))
     = FFN.parameter (discriminator onceReset)
  /\ weights (reloaded onceReset) (generator (reloaded onceReset))
     = weights onceReset (generator onceReset)
  /\ weights (reloaded onceReset) (discriminator (reloaded onceReset))
     = weights onceReset (discriminator onceReset)
  /\ genWeights (reloaded onceReset) = genWeights onceReset
  /\ discWeights (reloaded onceReset) = discWeights onceReset.
Proof.
  apply (ResetData_keeps_parameters_when_latched
           trainData 1%R 0%R (fresh 1 0)).
  - vm_compute. reflexivity.
  - vm_compute. reflexivity.
Defined.

(** The engine on which [Evaluate] is run below has just taken the
    gate: the labels of its generated slice are real. *)
Lemma labels_real_after_gated_step :
  generatedLabels (engineAfter (loaded 1 0)) = [[1%R]].
Proof. reflexivity. Qed.

(** From noise 2, generated column 2 and a real label, [Evaluate] goes
    to noise 3, the value of the next call of the noise function, to the
    generated column 3, which the generator puts out on that noise, and to
    a fake label. *)
Lemma Evaluate_refreshes_generated_slice_witness :
  (exists s1 gback,
     Reset_if_empty (engineAfter (loaded 1 0)) = Some s1
     /\ noise (snd (evaluated (engineAfter (loaded 1 0))))
        = fst (imbue (noise (engineAfter (loaded 1 0))) (entropy s1))
     /\ entropy (snd (evaluated (engineAfter (loaded 1 0))))
        = snd (imbue (noise (engineAfter (loaded 1 0))) (entropy s1))
     /\ map (@length R) (noise (snd (evaluated (engineAfter (loaded 1 0)))))
        = map (@length R) (noise (engineAfter (loaded 1 0)))
     /\ concat (noise (snd (evaluated (engineAfter (loaded 1 0)))))
        = map (fun k => fst (noiseFunction (drawn k (entropy s1))))
              (seq 0 (length (concat (noise (engineAfter (loaded 1 0))))))
     /\ entropy (snd (evaluated (engineAfter (loaded 1 0))))
        = drawn (length (concat (noise (engineAfter (loaded 1 0)))))
                (entropy s1)
     /\ FFN_Forward (generator (inferenceMode s1))
                    (weights (inferenceMode s1)
                             (generator (inferenceMode s1)))
                    (noise (snd (evaluated (engineAfter (loaded 1 0)))))
        = Some (FFN.network
                  (generator (snd (evaluated (engineAfter (loaded 1 0))))))
     /\ back (FFN.network
                (generator (snd (evaluated (engineAfter (loaded 1 0))))))
        = Some gback
     /\ generatedColumns (snd (evaluated (engineAfter (loaded 1 0))))
        = outputParameterVisitor gback
     /\ generatedLabels (snd (evaluated (engineAfter (loaded 1 0))))
        = filled 1
            (N.to_nat
               (batchSize (snd (evaluated (engineAfter (loaded 1 0))))))
            (fakeLabel (snd (evaluated (engineAfter (loaded 1 0)))))
     /\ numFunctions (snd (evaluated (engineAfter (loaded 1 0))))
        = numFunctions (engineAfter (loaded 1 0))
     /\ batchSize (snd (evaluated (engineAfter (loaded 1 0))))
        = batchSize (engineAfter (loaded 1 0))
     /\ fakeLabel (snd (evaluated (engineAfter (loaded 1 0))))
        = fakeLabel (engineAfter (loaded 1 0))
     /\ currentBatch (snd (evaluated (engineAfter (loaded 1 0))))
        = currentBatch (engineAfter (loaded 1 0))
     /\ preTrainSize (snd (evaluated (engineAfter (loaded 1 0))))
        = preTrainSize (engineAfter (loaded 1 0)))
  /\ noise (engineAfter (loaded 1 0)) = [[2%R]]
  /\ entropy (engineAfter (loaded 1 0)) = 3
  /\ generatedColumns (engineAfter (loaded 1 0)) = [[2%R]]
  /\ generatedLabels (engineAfter (loaded 1 0)) = [[1%R]]
  /\ noise (snd (evaluated (engineAfter (loaded 1 0)))) = [[3%R]]
  /\ entropy (snd (evaluated (engineAfter (loaded 1 0)))) = 4
  /\ generatedColumns (snd (evaluated (engineAfter (loaded 1 0))))
     = [[3%R]]
  /\ generatedLabels (snd (evaluated (engineAfter (loaded 1 0))))
     = [[0%R]].
Proof.
  split.
  - apply (Evaluate_refreshes_generated_slice
             [] 0 0 (engineAfter (loaded 1 0))
             (fst (evaluated (engineAfter (loaded 1 0))))).
    vm_compute. reflexivity.
  - repeat split; vm_compute; reflexivity.
Defined.

End Runs.

Section MetricRuns.

Import Arma FrechetDistance.
Open Scope R_scope.

(** The covariance of the two points is a square root of its own
    square, the symmetric positive semi-definite one. *)
Lemma covariance_is_a_square_root :
  is_sqrtm [[8; 6]; [6; 9 / 2]]
           (mmul (cov (trans two_points)) (trans (cov (trans two_points)))).
Proof.
  rewrite cov_two_points, product_two_points.
  repeat split.
  - repeat constructor.
  - cbv [mmul rows row n_rows hd length seq map nth dot combine fst snd
         Rsum fold_right]. repeat (f_equal; try field).
Qed.

Lemma Evaluate_differs_from_sqrtm_formula_witness :
  Evaluate two_points two_points
  <> Evaluate_spec [[8; 6]; [6; 9 / 2]] two_points two_points.
Proof.
  apply (Evaluate_differs_from_sqrtm_formula [[8; 6]; [6; 9 / 2]]).
  exact covariance_is_a_square_root.
Defined.

End MetricRuns.

(* ================================================================= *)
(** ** What a call leaves alone *)

Section Frames.

Context {L : Layers} {C : Collaborators L}.
Import Arma.
Open Scope N_scope.

Lemma arena_kept_refl (s : GAN) : arena_kept s s.
Proof. unfold arena_kept; repeat split. Qed.

Lemma arena_kept_trans (a b c : GAN) :
  arena_kept a b -> arena_kept b c -> arena_kept a c.
Proof.
  unfold arena_kept; intros H1 H2.
  decompose [and] H1; decompose [and] H2; clear H1 H2.
  repeat split; congruence.
Qed.

Lemma modes_kept_refl (s : GAN) : modes_kept s s.
Proof. unfold modes_kept; repeat split. Qed.

Lemma modes_kept_trans (a b c : GAN) :
  modes_kept a b -> modes_kept b c -> modes_kept a c.
Proof.
  unfold modes_kept; intros H1 H2.
  decompose [and] H1; decompose [and] H2; clear H1 H2.
  repeat split; congruence.
Qed.

Lemma arena_kept_layout (s s' : GAN) :
  arena_kept s s' -> arena_layout s -> arena_layout s'.
Proof.
  unfold arena_kept, arena_layout, weights.
  intros (P & GW & DW & G & D & _). now rewrite P, GW, DW, G, D.
Qed.

Lemma trainingMode_arena (s : GAN) : arena_kept s (trainingMode s).
Proof.
  unfold trainingMode. destruct (deterministic s).
  - unfold arena_kept, ResetDeterministic; members; repeat split.
  - apply arena_kept_refl.
Qed.

Lemma inferenceMode_arena (s : GAN) : arena_kept s (inferenceMode s).
Proof.
  unfold inferenceMode. destruct (negb (deterministic s)).
  - unfold arena_kept, ResetDeterministic; members; repeat split.
  - apply arena_kept_refl.
Qed.

Lemma is_empty_nil {A : Type} (l : list A) :
  is_empty l = true <-> l = [].
Proof. destruct l; simpl; split; intros H; auto; discriminate. Qed.

(** The lazy reset keeps an arena that is laid out, lays out an empty
    one, and leaves an engine whose buffer holds something as it is. *)
Lemma Reset_if_empty_layout (s s' : GAN) :
  Reset_if_empty s = Some s' ->
  (arena_layout s \/ parameter s = [] -> arena_layout s')
  /\ (parameter s <> [] -> s' = s).
Proof.
  unfold Reset_if_empty. destruct (is_empty (parameter s)) eqn:E.
  - intros H. apply is_empty_nil in E. apply Reset_inv in H.
    split; [ tauto | congruence ].
  - intros H; inversion H; subst s'. split; [ | reflexivity ].
    intros [A|Z]; [ exact A | ]. apply is_empty_nil in Z. congruence.
Qed.

Lemma Reset_modes (s s' : GAN) : Reset s = Some s' -> modes_kept s s'.
Proof.
  unfold Reset. intros H. steps H.
  inversion H; subst s'. unfold modes_kept; members; repeat split.
Qed.

Lemma Reset_if_empty_modes (s s' : GAN) :
  Reset_if_empty s = Some s' -> modes_kept s s'.
Proof.
  unfold Reset_if_empty. destruct (is_empty (parameter s)).
  - apply Reset_modes.
  - intros H; inversion H; apply modes_kept_refl.
Qed.

(** What the generator step leaves alone. *)
Lemma generatorStep_frame (gradient g' : list R) (s s' : GAN) :
  generatorStep gradient s = Some (g', s') ->
  untouched (with_responses (responses s')
               (with_noiseGradientDiscriminator
                  (noiseGradientDiscriminator s') s)) s'
  /\ arena_kept s s' /\ modes_kept s s' /\ entropy s' = entropy s
  /\ set_cols (numFunctions s) (lastGenerated s)
              (filled 1 (N.to_nat (batchSize s)) (realLabel s))
              (responses s)
     = Some (responses s')
  /\ (view_fits (gradientGenerator s) gradient = true ->
      length g' = length gradient).
Proof.
  unfold generatorStep. intros H. steps H.
  inversion H; subst; clear H.
  unfold untouched, arena_kept, modes_kept, lastGenerated. members.
  repeat split; auto.
  intros Fit.
  rewrite !view_set_length; auto;
    repeat (rewrite view_fits_set; auto).
Qed.

Lemma modes_kept_agree (s s' : GAN) :
  modes_kept s s' -> modes_agree s -> modes_agree s'.
Proof.
  unfold modes_kept, modes_agree.
  intros (D & G & K & _) [A B]. rewrite D, G, K. auto.
Qed.

Lemma trainingMode_modes (s : GAN) :
  deterministic (trainingMode s) = false
  /\ (modes_agree s -> modes_agree (trainingMode s)).
Proof.
  unfold trainingMode, modes_agree.
  destruct (deterministic s) eqn:D.
  - unfold ResetDeterministic; members. auto.
  - rewrite D. auto.
Qed.

Lemma inferenceMode_modes (s : GAN) :
  deterministic (inferenceMode s) = true
  /\ (modes_agree s -> modes_agree (inferenceMode s)).
Proof.
  unfold inferenceMode, modes_agree.
  destruct (deterministic s) eqn:D; cbn [negb].
  - rewrite D. auto.
  - unfold ResetDeterministic; members. auto.
Qed.

End Frames.

(* ================================================================= *)
(** ** Training and evaluation calls, from outside *)

Section Calls.

Context {L : Layers} {C : Collaborators L}.
Import Arma.
Open Scope N_scope.

(** The statements of [EvaluateWithGradient] before the first sub-model
    call: [F] relates the engine they leave to [s]. *)
Ltac entered H s F :=
  unfold EvaluateWithGradient in H; steps H;
  match goal with
  | E : Reset_if_empty s = Some ?s0,
    Z : (if is_empty _ then _ else _) = Some (_, ?s1) |- _ =>
      pose proof (untouched_trans _ _ _
                    (untouched_trans _ _ _
                       (Reset_if_empty_untouched _ _ E)
                       (proj1 (zeroed_gradient _ _ _ _ Z)))
                    (trainingMode_untouched s1)) as F
  end.

(** What a training step reads and writes of the two data buffers, and
    the configuration it leaves alone. *)
Lemma EvaluateWithGradient_data
    (p : list R) (i : N) (g : list R) (b : N) (s : GAN)
    (res : R) (g' : list R) (s' : GAN) :
  EvaluateWithGradient p i g b s = Some (res, g', s') ->
  generatorUpdateStep s <> 0
  /\ (exists out,
        set_cols (numFunctions s) (lastGenerated s) out (predictors s)
        = Some (predictors s'))
  /\ (exists r1,
        set_cols (numFunctions s) (lastGenerated s)
                 (filled 1 (N.to_nat (batchSize s)) (fakeLabel s))
                 (responses s) = Some r1
        /\ (responses s' = r1
            \/ set_cols (numFunctions s) (lastGenerated s)
                        (filled 1 (N.to_nat (batchSize s)) (realLabel s)) r1
               = Some (responses s')))
  /\ numFunctions s' = numFunctions s /\ batchSize s' = batchSize s
  /\ generatorUpdateStep s' = generatorUpdateStep s
  /\ noiseDim s' = noiseDim s /\ multiplier s' = multiplier s
  /\ realLabel s' = realLabel s /\ fakeLabel s' = fakeLabel s.
Proof.
  intros H. entered H s F.
  match goal with
  | E : SizeT.rem _ _ = Some _ |- _ =>
      apply rem_inv in E; destruct E as [NZ _]
  end.
  match goal with
  | E : set_cols _ _ (filled _ _ _) _ = Some _ |- _ => rename E into Fake
  end.
  match goal with
  | E : set_cols _ _ (outputParameterVisitor _) _ = Some _ |- _ =>
      rename E into Out
  end.
  match goal with
  | G : (if _ then generatorStep _ _ else _) = Some (_, ?s2) |- _ =>
      rename G into Gate; set (t := s2) in *
  end.
  revert NZ Fake Out Gate. carry F. intros NZ Fake Out Gate.
  assert (K : predictors t = predictors s' /\ responses t = responses s'
              /\ numFunctions s' = numFunctions t
              /\ batchSize s' = batchSize t
              /\ generatorUpdateStep s' = generatorUpdateStep t
              /\ noiseDim s' = noiseDim t /\ multiplier s' = multiplier t
              /\ realLabel s' = realLabel t /\ fakeLabel s' = fakeLabel t).
  { inversion H; subst s'; clear H.
    match goal with
    | |- context [if 0 <? ?c then _ else _] => destruct (0 <? c)
    end; members; repeat split. }
  clear H. destruct K as (KP & KR & -> & -> & -> & -> & -> & -> & ->).
  rewrite <- KP, <- KR. clear KP KR.
  destruct (_ && _) in Gate.
  - apply generatorStep_frame in Gate.
    destruct Gate as (U & _ & _ & _ & Real & _).
    unfold untouched in U. members_in U. members_in Real.
    destruct U as (UP & _ & U3 & U4 & U5 & _ & U7 & _ & U9 & U10 & U11 & _).
    revert Real. carry F. intros Real.
    rewrite UP, U3, U4, U5, U7, U9, U10, U11. carry F.
    repeat split; eauto.
  - inversion Gate; subst t; clear Gate. members. carry F.
    repeat split; eauto.
Qed.

(** What a loss-only evaluation reads and writes of the two data
    buffers. *)
Lemma Evaluate_data (p : list R) (i b : N) (s : GAN) (res : R) (s' : GAN) :
  Evaluate p i b s = Some (res, s') ->
  (exists out,
     set_cols (numFunctions s) (lastGenerated s) out (predictors s)
     = Some (predictors s'))
  /\ set_cols (numFunctions s) (lastGenerated s)
              (filled 1 (N.to_nat (batchSize s)) (fakeLabel s))
              (responses s) = Some (responses s')
  /\ untouched (with_noise (noise s')
                  (with_responses (responses s')
                     (with_predictors (predictors s') s))) s'.
Proof.
  unfold Evaluate. intros H. steps H.
  match goal with
  | E : Reset_if_empty s = Some ?s0 |- _ =>
      pose proof (untouched_trans _ _ _
                    (untouched_trans _ _ _
                       (Reset_if_empty_untouched _ _ E)
                       (inferenceMode_untouched s0))
                    (inferenceMode_untouched (inferenceMode s0))) as F
  end.
  match goal with
  | E : set_cols _ _ (filled _ _ _) _ = Some _ |- _ => rename E into Fake
  end.
  match goal with
  | E : set_cols _ _ (outputParameterVisitor _) _ = Some _ |- _ =>
      rename E into Out
  end.
  inversion H; subst s'; clear H. unfold untouched. members.
  revert Fake Out. carry F. intros Fake Out.
  repeat split; eauto.
Qed.

(** X1.  [EvaluateWithGradient] takes [currentBatch % generatorUpdateStep]:
    an engine built with [generatorUpdateStep = 0] divides by zero on
    every training step, whatever its data and its arguments; no call
    returns. *)
Theorem EvaluateWithGradient_faults_on_zero_update_step
    (p : list R) (i : N) (g : list R) (b : N) (s : GAN) :
  generatorUpdateStep s = 0 ->
  EvaluateWithGradient p i g b s = None.
Proof.
  intros Z.
  destruct (EvaluateWithGradient p i g b s) as [[[res g'] s']|] eqn:H;
    [ | reflexivity ].
  apply EvaluateWithGradient_data in H. destruct H as (NZ & _).
  contradiction.
Qed.

Lemma no_empty_slice (first last : N) (r : nat) (x : R) (m m' : mat) :
  set_cols first last (filled r 0 x) m = Some m' -> False.
Proof.
  intros H. apply set_cols_inv in H.
  destruct H as (_ & _ & Le & Width & _).
  rewrite filled_n_cols in Width. lia.
Qed.

(** X2.  With [batchSize = 0] the generated slice is the column range
    [numFunctions, numFunctions - 1], which no matrix has: neither
    [EvaluateWithGradient] nor [Evaluate] returns. *)
Theorem zero_batchSize_faults
    (p : list R) (i : N) (g : list R) (b : N) (s : GAN) :
  batchSize s = 0 ->
  EvaluateWithGradient p i g b s = None /\ Evaluate p i b s = None.
Proof.
  intros Z. split.
  - destruct (EvaluateWithGradient p i g b s) as [[[res g'] s']|] eqn:H;
      [ exfalso | reflexivity ].
    apply EvaluateWithGradient_data in H.
    destruct H as (_ & _ & (r1 & Fake & _) & _).
    rewrite Z in Fake. exact (no_empty_slice _ _ _ _ _ _ Fake).
  - destruct (Evaluate p i b s) as [[res s']|] eqn:H;
      [ exfalso | reflexivity ].
    apply Evaluate_data in H. destruct H as (_ & Fake & _).
    rewrite Z in Fake. exact (no_empty_slice _ _ _ _ _ _ Fake).
Qed.

Lemma no_column_of_nothing (first last : N) (x m' : mat) :
  set_cols first last x [] = Some m' -> False.
Proof.
  intros H. apply set_cols_inv in H.
  destruct H as (_ & Fit & Le & Width & _). simpl in Fit. lia.
Qed.

(** X3.  An engine that holds no data, as a newly built one does before
    [ResetData], can be neither trained nor evaluated nor shuffled: each of
    the three calls writes a column range of the empty [predictors] and
    faults. *)
Theorem calls_fault_without_data
    (p : list R) (i : N) (g : list R) (b : N) (s : GAN) :
  predictors s = [] ->
  EvaluateWithGradient p i g b s = None
  /\ Evaluate p i b s = None
  /\ Shuffle s = None.
Proof.
  intros Z. repeat split.
  - destruct (EvaluateWithGradient p i g b s) as [[[res g'] s']|] eqn:H;
      [ exfalso | reflexivity ].
    apply EvaluateWithGradient_data in H.
    destruct H as (_ & (out & Out) & _).
    rewrite Z in Out. exact (no_column_of_nothing _ _ _ _ Out).
  - destruct (Evaluate p i b s) as [[res s']|] eqn:H;
      [ exfalso | reflexivity ].
    apply Evaluate_data in H. destruct H as ((out & Out) & _).
    rewrite Z in Out. exact (no_column_of_nothing _ _ _ _ Out).
  - destruct (Shuffle s) as [s'|] eqn:H; [ exfalso | reflexivity ].
    unfold Shuffle in H. steps H.
    match goal with
    | E : set_cols _ _ _ _ = Some _ |- _ =>
        rewrite Z in E; exact (no_column_of_nothing _ _ _ _ E)
    end.
Qed.

(** What a training step does to the arena, to the mode flags and to
    the length of the gradient. *)
Lemma EvaluateWithGradient_settled
    (p : list R) (i : N) (g : list R) (b : N) (s : GAN)
    (res : R) (g' : list R) (s' : GAN) :
  EvaluateWithGradient p i g b s = Some (res, g', s') ->
  exists s0 s1,
    Reset_if_empty s = Some s0
    /\ (if is_empty g then Reset_if_empty s0 = Some s1 else s1 = s0)
    /\ arena_kept s1 s'
    /\ modes_kept (trainingMode s1) s'
    /\ length g' = (if is_empty g then length (parameter s1)
                   else length g).
Proof.
  intros H. entered H s F.
  match goal with
  | E : Reset_if_empty s = Some ?s0,
    Z : (if is_empty _ then _ else _) = Some (?l, ?s1) |- _ =>
      exists s0, s1; split; [ reflexivity | ];
      rename Z into Zero; rename l into gr0; rename s0 into t0;
      rename s1 into t1; clear E
  end.
  assert (Len : (if is_empty g then Reset_if_empty t0 = Some t1
                 else t1 = t0)
                /\ length gr0 = (if is_empty g then length (parameter t1)
                                 else length g)).
  { clear - Zero. destruct (is_empty g).
    - step Zero. inversion Zero; subst. split; [ reflexivity | ].
      apply repeat_length.
    - inversion Zero; subst. split; [ reflexivity | ].
      apply repeat_length. }
  destruct Len as [Again Len]. split; [ exact Again | ]. clear Zero Again.
  match goal with
  | E : guard (_ && _) = Some _ |- _ =>
      apply guard_inv in E; apply andb_true_iff in E;
      destruct E as [FG FD]
  end.
  match goal with
  | G : (if _ then generatorStep ?gr ?T else _) = Some (?l2, ?s2) |- _ =>
      assert (K : arena_kept T s2 /\ modes_kept T s2
                  /\ length l2 = length gr);
      [ destruct (_ && _) in G;
        [ apply generatorStep_frame in G;
          destruct G as (_ & A & M & _ & _ & Fit);
          split; [ exact A | split; [ exact M | ] ];
          apply Fit; members;
          rewrite !view_fits_set; auto; now rewrite view_fits_set
        | inversion G; subst;
          split; [ apply arena_kept_refl
                 | split; [ apply modes_kept_refl | reflexivity ] ] ]
      | clear G; destruct K as (A & M & Fit) ]
  end.
  inversion H; subst s' g'; clear H.
  rewrite Fit, !view_set_length, Len; auto;
    [ | now rewrite view_fits_set ].
  match goal with
  | F : untouched _ (trainingMode ?s1) |- _ =>
      pose proof (trainingMode_arena s1) as TA
  end.
  unfold arena_kept, modes_kept in *. members_in A. members_in M.
  destruct A as (A1 & A2 & A3 & A4 & A5 & A6).
  destruct M as (M1 & M2 & M3 & M4 & M5).
  destruct TA as (T1 & T2 & T3 & T4 & T5 & T6).
  match goal with
  | |- context [if 0 <? ?c then _ else _] => destruct (0 <? c)
  end; members;
    rewrite A1, A2, A3, A4, A5, A6, M1, M2, M3, M4, M5;
    repeat split; auto.
Qed.

(** What a loss-only evaluation does to the arena and to the mode
    flags. *)
Lemma Evaluate_settled (p : list R) (i b : N) (s : GAN) (res : R)
    (s' : GAN) :
  Evaluate p i b s = Some (res, s') ->
  exists s0,
    Reset_if_empty s = Some s0
    /\ arena_kept s0 s'
    /\ modes_kept (inferenceMode s0) s'.
Proof.
  unfold Evaluate. intros H. steps H.
  match goal with
  | E : Reset_if_empty s = Some ?s0 |- _ =>
      exists s0; split; [ reflexivity | ];
      pose proof (inferenceMode_arena s0) as A;
      rewrite !inferenceMode_twice in *
  end.
  inversion H; subst s'; clear H.
  unfold arena_kept, modes_kept in *. members.
  destruct A as (A1 & A2 & A3 & A4 & A5 & A6).
  repeat split; auto.
Qed.

Lemma set_cols_keeps_before (first last : N) (x m m' : mat) :
  set_cols first last x m = Some m' ->
  firstn (N.to_nat first) m' = firstn (N.to_nat first) m
  /\ n_cols m' = n_cols m.
Proof.
  intros H. apply set_cols_reads in H. tauto.
Qed.

(** X4.  A training step writes the generated slice only: the training
    samples, columns [0, numFunctions) of [predictors], and their labels
    are after the call what they were before, and the two buffers keep
    their numbers of columns. *)
Theorem EvaluateWithGradient_keeps_training_data
    (p : list R) (i : N) (g : list R) (b : N) (s : GAN)
    (res : R) (g' : list R) (s' : GAN) :
  EvaluateWithGradient p i g b s = Some (res, g', s') ->
  realColumns s' = realColumns s
  /\ realLabels s' = realLabels s
  /\ n_cols (predictors s') = n_cols (predictors s)
  /\ n_cols (responses s') = n_cols (responses s)
  /\ numFunctions s' = numFunctions s /\ batchSize s' = batchSize s
  /\ (fused_layout s -> fused_layout s').
Proof.
  intros H. apply EvaluateWithGradient_data in H.
  destruct H as (_ & (out & Out) & (r1 & Fake & Real) & NF & BS & _).
  apply set_cols_keeps_before in Out, Fake.
  destruct Out as [OutB OutN], Fake as [FakeB FakeN].
  assert (K : firstn (N.to_nat (numFunctions s)) (responses s')
              = firstn (N.to_nat (numFunctions s)) (responses s)
              /\ n_cols (responses s') = n_cols (responses s)).
  { destruct Real as [->|Real]; [ tauto | ].
    apply set_cols_keeps_before in Real. destruct Real as [RB RN].
    rewrite RB, RN. tauto. }
  destruct K as [KB KN].
  unfold realColumns, realLabels, fused_layout.
  rewrite NF, BS, OutN, KN.
  repeat match goal with |- _ /\ _ => split end; tauto.
Qed.

(** X5.  A loss-only evaluation writes the generated slice only: the
    training samples and their labels are what they were, the two buffers
    keep their numbers of columns; and it writes no parameter: when the
    buffer is not empty, the buffer, the two counts and the two views are
    as they were. *)
Theorem Evaluate_keeps_training_data
    (p : list R) (i b : N) (s : GAN) (res : R) (s' : GAN) :
  Evaluate p i b s = Some (res, s') ->
  realColumns s' = realColumns s
  /\ realLabels s' = realLabels s
  /\ n_cols (predictors s') = n_cols (predictors s)
  /\ n_cols (responses s') = n_cols (responses s)
  /\ numFunctions s' = numFunctions s /\ batchSize s' = batchSize s
  /\ (fused_layout s -> fused_layout s')
  /\ (arena_layout s \/ parameter s = [] -> arena_layout s')
  /\ (parameter s <> [] -> arena_kept s s').
Proof.
  intros H. pose proof (Evaluate_settled _ _ _ _ _ _ H) as (s0 & R0 & A & _).
  apply Evaluate_data in H.
  destruct H as ((out & Out) & Fake & U).
  apply set_cols_keeps_before in Out, Fake.
  destruct Out as [OutB OutN], Fake as [FakeB FakeN].
  unfold untouched in U. members_in U.
  destruct U as (_ & _ & _ & NF & BS & _).
  apply Reset_if_empty_layout in R0. destruct R0 as [Lay Same].
  unfold realColumns, realLabels, fused_layout.
  rewrite NF, BS, OutN, FakeN.
  repeat match goal with |- _ /\ _ => split end; try tauto.
  - intros V. apply (arena_kept_layout s0); auto.
  - intros NE. now rewrite <- (Same NE).
Qed.

(** X6.  The gradient a training step hands back has the length of the
    parameter buffer when the caller passes an empty one, and the length
    of the caller's buffer otherwise. *)
Theorem EvaluateWithGradient_sizes_the_gradient
    (p : list R) (i : N) (g : list R) (b : N) (s : GAN)
    (res : R) (g' : list R) (s' : GAN) :
  EvaluateWithGradient p i g b s = Some (res, g', s') ->
  length g' = (if is_empty g then length (parameter s') else length g).
Proof.
  intros H. apply EvaluateWithGradient_settled in H.
  destruct H as (s0 & s1 & _ & _ & (P & _) & _ & Len).
  now rewrite P.
Qed.

(** X7.  A training step keeps the arena: when the parameter buffer is
    laid out, or empty so that the call resets it first, the buffer is
    laid out after the call; and the call writes no parameter: when the
    buffer is not empty, the buffer, the two counts, the two views and the
    latch are as they were. *)
Theorem EvaluateWithGradient_keeps_the_arena
    (p : list R) (i : N) (g : list R) (b : N) (s : GAN)
    (res : R) (g' : list R) (s' : GAN) :
  EvaluateWithGradient p i g b s = Some (res, g', s') ->
  (arena_layout s \/ parameter s = [] -> arena_layout s')
  /\ (parameter s <> [] -> arena_kept s s').
Proof.
  intros H. apply EvaluateWithGradient_settled in H.
  destruct H as (s0 & s1 & R0 & R1 & A & _).
  apply Reset_if_empty_layout in R0. destruct R0 as [Lay0 Same0].
  assert (K : (arena_layout s0 -> arena_layout s1)
              /\ (parameter s0 <> [] -> s1 = s0)).
  { destruct (is_empty g).
    - apply Reset_if_empty_layout in R1. destruct R1 as [Lay1 Same1].
      split; [ tauto | exact Same1 ].
    - subst s1. tauto. }
  destruct K as [Lay1 Same1]. split.
  - intros V. apply (arena_kept_layout s1); auto.
  - intros NE. pose proof (Same0 NE) as E0. subst s0.
    now rewrite <- (Same1 NE).
Qed.

(** X8.  A training step leaves the engine in training mode; when the
    mode flags of the two sub-models were the engine's before the call,
    they are after it. *)
Theorem EvaluateWithGradient_leaves_training_mode
    (p : list R) (i : N) (g : list R) (b : N) (s : GAN)
    (res : R) (g' : list R) (s' : GAN) :
  EvaluateWithGradient p i g b s = Some (res, g', s') ->
  deterministic s' = false /\ (modes_agree s -> modes_agree s').
Proof.
  intros H. apply EvaluateWithGradient_settled in H.
  destruct H as (s0 & s1 & R0 & R1 & _ & M & _).
  apply Reset_if_empty_modes in R0.
  assert (M1 : modes_kept s0 s1).
  { destruct (is_empty g).
    - now apply Reset_if_empty_modes.
    - subst s1. apply modes_kept_refl. }
  destruct (trainingMode_modes s1) as [T TA].
  split.
  - destruct M as (D & _). now rewrite D.
  - intros V. apply (modes_kept_agree _ _ M), TA.
    apply (modes_kept_agree _ _ M1), (modes_kept_agree _ _ R0), V.
Qed.

(** X9.  A loss-only evaluation leaves the engine in inference mode;
    when the mode flags of the two sub-models were the engine's before the
    call, they are after it. *)
Theorem Evaluate_leaves_inference_mode
    (p : list R) (i b : N) (s : GAN) (res : R) (s' : GAN) :
  Evaluate p i b s = Some (res, s') ->
  deterministic s' = true /\ (modes_agree s -> modes_agree s').
Proof.
  intros H. apply Evaluate_settled in H.
  destruct H as (s0 & R0 & _ & M).
  apply Reset_if_empty_modes in R0.
  destruct (inferenceMode_modes s0) as [T TA].
  split.
  - destruct M as (D & _). now rewrite D.
  - intros V. apply (modes_kept_agree _ _ M), TA.
    apply (modes_kept_agree _ _ R0), V.
Qed.

End Calls.

(* ================================================================= *)
(** ** Loading the training data *)

Section Loading.

Context {L : Layers} {C : Collaborators L}.
Import Arma.
Open Scope N_scope.

Lemma set_size_n_cols (r c : nat) (old : mat) :
  n_cols (set_size r c old) = c.
Proof.
  unfold set_size.
  destruct (Nat.eqb (n_rows old) r && Nat.eqb (n_cols old) c) eqn:E.
  - apply andb_true_iff in E. destruct E as [_ E].
    now apply Nat.eqb_eq in E.
  - apply filled_n_cols.
Qed.

Lemma join_rows_inv (a b r : mat) :
  join_rows a b = Some r -> r = a ++ b.
Proof.
  unfold join_rows. destruct (_ || _); intros H; now inversion H.
Qed.

(** A sum of two [size_t] that is not below its first term has not
    wrapped. *)
Lemma add_no_wrap (a b : N) :
  b <= SizeT.size_max -> a <= SizeT.add a b -> SizeT.add a b = a + b.
Proof.
  unfold SizeT.add, SizeT.wrap, SizeT.size_max. intros Hb Ha.
  assert (M : SizeT.modulus <> 0) by discriminate.
  destruct (N.lt_ge_cases (a + b) SizeT.modulus) as [Small|Big].
  - now apply N.mod_small.
  - exfalso.
    assert (a < SizeT.modulus).
    { pose proof (N.mod_lt (a + b) SizeT.modulus M). lia. }
    assert (E : (a + b) mod SizeT.modulus = a + b - SizeT.modulus).
    { symmetry. apply (N.mod_unique _ _ 1); lia. }
    rewrite E in Ha. pose proof (eq_refl : SizeT.modulus = 2 ^ 64). lia.
Qed.

(** The statements of [ResetData] up to the test of the latch leave the
    engine [t]; the test, and [Reset] when it runs, keep its data. *)
Ltac loaded_upto H t K :=
  unfold ResetData in H; steps H;
  match type of H with
  | (if _ then Reset ?T else _) = Some ?s' =>
      set (t := T) in *;
      assert (K : untouched t s' /\ modes_kept t s');
      [ destruct (negb _) in H;
        [ split; [ now apply Reset_untouched | now apply Reset_modes ]
        | inversion H; split;
          [ apply untouched_refl | apply modes_kept_refl ] ]
      | clear H; destruct K as [K M] ]
  end.

(** X11.  [ResetData] writes the training set into the columns
    [0, numFunctions - 1] of [predictors]; for a training set without a
    column that is the range [0, 2^64 - 1], and the call faults. *)
Theorem ResetData_faults_on_empty_data
    (trainData : mat) (realLabel fakeLabel : R) (s : GAN) :
  n_cols trainData = 0%nat ->
  ResetData trainData realLabel fakeLabel s = None.
Proof.
  intros Z.
  destruct (ResetData trainData realLabel fakeLabel s) as [s'|] eqn:H;
    [ exfalso | reflexivity ].
  unfold ResetData in H. steps H.
  match goal with
  | E : set_cols _ _ trainData _ = Some _ |- _ =>
      apply set_cols_inv in E; destruct E as (_ & _ & _ & Width & _)
  end.
  rewrite Z in Width. cbn in Width. lia.
Qed.

(** X12.  After [ResetData] the two data buffers are fused: [predictors]
    holds the training set in its first [numFunctions] columns and has
    [batchSize] more for a generated batch, [responses] is [numFunctions]
    real labels followed by [batchSize] fake ones, and the discriminator
    reads the two buffers of the engine.  The step counter is 0 again, the
    pretraining counter is not restored, the engine and both sub-models
    are in inference mode. *)
Theorem ResetData_fuses_the_data
    (trainData : mat) (rl fl : R) (s s' : GAN) :
  batchSize s <= SizeT.size_max ->
  ResetData trainData rl fl s = Some s' ->
  numFunctions s' = N.of_nat (n_cols trainData)
  /\ 1 <= numFunctions s'
  /\ realColumns s' = trainData
  /\ responses s'
     = filled 1 (n_cols trainData) rl
       ++ filled 1 (N.to_nat (batchSize s)) fl
  /\ fused_layout s'
  /\ batchSize s' = batchSize s
  /\ realLabel s' = rl /\ fakeLabel s' = fl
  /\ currentBatch s' = 0 /\ preTrainSize s' = preTrainSize s
  /\ deterministic s' = true /\ modes_agree s'
  /\ FFN.predictors (discriminator s') = FFN.engine_predictors
  /\ FFN.responses (discriminator s') = FFN.engine_responses.
Proof.
  intros Hb H. loaded_upto H t K.
  match goal with
  | E : set_cols _ _ trainData _ = Some _ |- _ => rename E into Data
  end.
  match goal with
  | E : join_rows _ _ = Some _ |- _ => apply join_rows_inv in E; subst
  end.
  unfold ResetDeterministic in Data. members_in Data.
  pose proof (set_cols_inv _ _ _ _ _ Data) as (_ & Fit & _ & Width & _).
  pose proof (set_cols_reads _ _ _ _ _ Data) as (Reads & _ & _ & Cols).
  rewrite set_size_n_cols in Fit, Cols.
  change (N.to_nat 0) with 0%nat in *. cbn [Nat.add skipn] in *.
  assert (NF : 1 <= N.of_nat (n_cols trainData)).
  { destruct (n_cols trainData); [ | lia ].
    cbn in Width. lia. }
  assert (Sum : SizeT.add (N.of_nat (n_cols trainData)) (batchSize s)
                = N.of_nat (n_cols trainData) + batchSize s)
    by (apply add_no_wrap; [ exact Hb | lia ]).
  rewrite Sum in Cols.
  unfold realColumns, fused_layout, modes_agree.
  destruct M as (M1 & M2 & M3 & M4 & M5).
  rewrite M1, M2, M3, M4, M5. carry K.
  subst t. unfold ResetDeterministic. members.
  rewrite Nat2N.id, Reads, Cols.
  assert (W : n_cols (filled 1 (n_cols trainData) rl
                      ++ filled 1 (N.to_nat (batchSize s)) fl)
              = (n_cols trainData + N.to_nat (batchSize s))%nat).
  { unfold n_cols at 1, filled.
    now rewrite length_app, !repeat_length. }
  repeat split; auto; lia.
Qed.

End Loading.

(* ================================================================= *)
(** ** The schedule of the generator, inference, persistence *)

Section Schedule.

Context {L : Layers} {C : Collaborators L}.
Import Arma.
Open Scope N_scope.

Lemma incr_small (n : N) : n + 1 <= SizeT.size_max -> SizeT.incr n = n + 1.
Proof.
  intros H. unfold SizeT.incr, SizeT.add. now apply wrap_small.
Qed.

(** X13.  The schedule of the generator.  From an engine whose step
    counter is [c] and whose pretraining counter is [p], after [k] training
    steps in a row (with [c + k] within a [size_t]) the next step takes
    the gate exactly when [(c + k) mod generatorUpdateStep = 0] and
    [p <= k]: no step of the first [p] updates the generator, and after
    them every [generatorUpdateStep]-th does. *)
Theorem EvaluateWithGradient_run_gate
    (calls : list (list R * N * list R * N)) (s s' : GAN) :
  currentBatch s + N.of_nat (length calls) <= SizeT.size_max ->
  EvaluateWithGradient_run calls s = Some s' ->
  generatorUpdateStep s' = generatorUpdateStep s
  /\ gate s'
     = ((currentBatch s + N.of_nat (length calls))
          mod generatorUpdateStep s =? 0)
       && (preTrainSize s <=? N.of_nat (length calls)).
Proof.
  revert s; induction calls as [|[[[p i] g] b] rest IH]; intros s Hs H.
  - inversion H; subst s'. cbn [length N.of_nat]. unfold gate.
    rewrite N.add_0_r. split; [ reflexivity | ]. f_equal.
    destruct (preTrainSize s); reflexivity.
  - cbn [EvaluateWithGradient_run] in H.
    destruct (EvaluateWithGradient p i g b s) as [[[res g'] s1]|] eqn:E;
      [ | discriminate ].
    cbn [bind] in H. cbn [length] in Hs.
    pose proof (EvaluateWithGradient_counters _ _ _ _ _ _ _ _ E) as [Ec Ep].
    apply EvaluateWithGradient_data in E.
    destruct E as (_ & _ & _ & _ & _ & Eu & _).
    rewrite incr_small in Ec by lia.
    assert (H1 : currentBatch s1 + N.of_nat (length rest)
                 <= SizeT.size_max) by lia.
    destruct (IH s1 H1 H) as [IHu IHg].
    rewrite IHu, IHg, Eu, Ec, Ep. cbn [length].
    split; [ reflexivity | ]. f_equal.
    + do 2 f_equal. lia.
    + destruct (N.leb_spec (preTrainSize s - 1) (N.of_nat (length rest)));
        destruct (N.leb_spec (preTrainSize s)
                             (N.of_nat (S (length rest)))); auto; lia.
Qed.

(** What [Forward] leaves alone. *)
Lemma Forward_inv (input : mat) (s s' : GAN) :
  Forward input s = Some s' ->
  untouched s s' /\ modes_kept s s'
  /\ exists s0, Reset_if_empty s = Some s0 /\ arena_kept s0 s'.
Proof.
  unfold Forward. intros H. steps H.
  match goal with
  | E : Reset_if_empty s = Some ?s0 |- _ =>
      pose proof (Reset_if_empty_untouched _ _ E) as U;
      pose proof (Reset_if_empty_modes _ _ E) as M
  end.
  inversion H; subst s'; clear H.
  split; [ | split ].
  - eapply untouched_trans; [ exact U | ].
    unfold untouched; members; repeat split.
  - eapply modes_kept_trans; [ exact M | ].
    unfold modes_kept; members; repeat split.
  - eexists; split; [ reflexivity | ].
    unfold arena_kept; members; repeat split.
Qed.

(** X14.  [Predict] forwards its input through the generator and the
    generator's output through the discriminator, both with the weights
    they read in the parameter buffer, and hands back the output of the
    discriminator's last layer: the engine [t] in which that happens is
    the one the call finds after its lazy reset, the change to inference
    mode and the lazy reset of [Forward], and the call leaves [t] with the
    layers the two forward passes return.  The engine is in inference mode
    afterwards.  The call writes none of the training state: the two data
    buffers, the noise, the labels and the counters are as they were; and
    no parameter, once the buffer holds some. *)
Theorem Predict_keeps_training_state
    (input : mat) (s : GAN) (output : mat) (s' : GAN) :
  Predict input s = Some (output, s') ->
  (exists s0 t gnet gback dnet dback,
     Reset_if_empty s = Some s0
     /\ Reset_if_empty (inferenceMode s0) = Some t
     /\ FFN_Forward (generator t) (weights t (generator t)) input
        = Some gnet
     /\ back gnet = Some gback
     /\ FFN_Forward (discriminator t) (weights t (discriminator t))
                    (outputParameterVisitor gback)
        = Some dnet
     /\ back dnet = Some dback
     /\ output = outputParameterVisitor dback
     /\ s' = with_discriminator (FFN.with_network dnet (discriminator t))
               (with_generator (FFN.with_network gnet (generator t)) t))
  /\ untouched s s'
  /\ deterministic s' = true
  /\ (modes_agree s -> modes_agree s')
  /\ (arena_layout s \/ parameter s = [] -> arena_layout s')
  /\ (parameter s <> [] -> arena_kept s s').
Proof.
  unfold Predict. intros H. steps H.
  rewrite !inferenceMode_twice in *.
  match goal with
  | E : Reset_if_empty s = Some ?s0, F : Forward _ _ = Some ?s1 |- _ =>
      rename E into R0; rename F into Fw; rename s0 into t0;
      rename s1 into t1
  end.
  inversion H; subst s' output; clear H.
  split.
  { unfold Forward in Fw. steps Fw.
    inversion Fw; subst t1; clear Fw. members_in E0.
    do 6 eexists. repeat split; eauto. }
  apply Forward_inv in Fw. destruct Fw as (U & M & t2 & R1 & A).
  destruct (inferenceMode_modes t0) as [T TA].
  pose proof (inferenceMode_arena t0) as IA.
  pose proof (Reset_if_empty_layout _ _ R0) as [Lay0 Same0].
  pose proof (Reset_if_empty_layout _ _ R1) as [Lay1 Same1].
  repeat match goal with |- _ /\ _ => split end.
  - eapply untouched_trans; [ exact (Reset_if_empty_untouched _ _ R0) | ].
    eapply untouched_trans; [ apply inferenceMode_untouched | exact U ].
  - destruct M as (D & _). now rewrite D.
  - intros V. apply (modes_kept_agree _ _ M), TA.
    apply (modes_kept_agree _ _ (Reset_if_empty_modes _ _ R0)), V.
  - intros V. apply (arena_kept_layout _ _ A), Lay1. left.
    apply (arena_kept_layout _ _ IA), Lay0, V.
  - intros NE. pose proof (Same0 NE) as E0. subst t0.
    assert (NE1 : parameter (inferenceMode s) <> []).
    { destruct IA as (P & _). now rewrite P. }
    rewrite (Same1 NE1) in A.
    exact (arena_kept_trans _ _ _ IA A).
Qed.

(** X15.  [Shuffle] permutes sample columns and writes nothing else: the
    labels, the noise, the counters, the parameters, the mode flags and
    the views are as they were, and [predictors] keeps its number of
    columns. *)
Theorem Shuffle_writes_predictors_only (s s' : GAN) :
  Shuffle s = Some s' ->
  untouched (with_predictors (predictors s') s) s'
  /\ n_cols (predictors s') = n_cols (predictors s)
  /\ arena_kept s s' /\ modes_kept s s'
  /\ (fused_layout s -> fused_layout s')
  /\ (arena_layout s -> arena_layout s').
Proof.
  unfold Shuffle. intros H. steps H.
  match goal with
  | E : set_cols _ _ _ _ = Some _ |- _ =>
      apply set_cols_keeps_before in E; destruct E as [_ Cols]
  end.
  inversion H; subst s'; clear H.
  unfold untouched, arena_kept, modes_kept, fused_layout, arena_layout,
    weights.
  members. rewrite Cols.
  repeat match goal with |- _ /\ _ => split end; auto.
Qed.

End Schedule.

Section Persisting.

Context {L : Layers} {C : Collaborators L} {P : Persistence L}.
Import Arma.
Open Scope N_scope.

(** The loop of [serialize] binds every layer at the running sum of the
    sizes the visitor has handed back. *)
Lemma bind_weights_from (w : list R) (net : list Layer) (o : N) :
  (forall v k l, snd (WeightSetVisitor v k l) = weightSizeVisitor l) ->
  bind_weights w (SizeT.wrap o) net
  = map (fun q => resetVisitor (fst (WeightSetVisitor w (fst q) (snd q))))
        (combine
           (map (fun k => SizeT.wrap (o + weight_total (firstn k net)))
                (seq 0 (length net)))
           net).
Proof.
  intros Size. revert o; induction net as [|l net IH]; intros o.
  - reflexivity.
  - cbn [bind_weights length seq map combine fst snd firstn].
    pose proof (Size w (SizeT.wrap o) l) as Sl.
    destruct (WeightSetVisitor w (SizeT.wrap o) l) as [l' n] eqn:E.
    cbn [snd] in Sl. subst n.
    replace (SizeT.add (SizeT.wrap o) (weightSizeVisitor l))
      with (SizeT.wrap (o + weightSizeVisitor l))
      by (unfold SizeT.add, SizeT.wrap;
          now rewrite N.Div0.add_mod_idemp_l).
    rewrite IH. unfold weight_total at 1. cbn [map fold_right].
    rewrite N.add_0_r, E. cbn [fst]. f_equal.
    rewrite <- seq_shift, map_map. do 2 f_equal.
    apply map_ext. intros k. cbn [firstn]. unfold weight_total.
    cbn [map fold_right]. f_equal. lia.
Qed.

(** X16.  Loading.  Whatever the archive holds for the two sub-models,
    and an archived sub-model owns its weights, after loading the engine
    has the parameter buffer, the two counts and the latch of the archive,
    the generator's view is [0, genWeights) of that buffer and the
    discriminator's the [discWeights] entries after it, so that the arena
    is laid out when the buffer has [genWeights + discWeights] entries;
    the layers of each sub-model are the archived ones, bound to the
    weights the sub-model reads through its new view by the loop of
    [WeightSetVisitor] and [resetVisitor] from offset 0; the engine and
    both sub-models are in inference mode.  The data buffers, the counters
    and the labels are not in the archive: they stay those of the engine
    loaded into.  Saving writes the buffer, the counts and the latch of
    the engine and leaves the engine as it is.  When the visitor hands
    back the size of the layer it binds, the loop binds every layer at
    the offset the layers before it take. *)
Theorem serialize_loading_lays_out_the_arena (ar : archive) (s t : GAN) :
  N.of_nat (length (saved_parameter ar))
  = saved_genWeights ar + saved_discWeights ar ->
  (let s' := snd (serialize loading ar t) in
   parameter s' = saved_parameter ar
   /\ genWeights s' = saved_genWeights ar
   /\ discWeights s' = saved_discWeights ar
   /\ reset s' = saved_reset ar
   /\ arena_layout s'
   /\ FFN.network (generator s')
      = FFN_ResetDeterministic
          (FFN.with_deterministic true
             (FFN.with_network
                (bind_weights (weights s' (generator s')) 0
                              (FFN.network (saved_generator ar)))
                (FFN.with_parameter
                   {| offset := 0; view_n_elem := saved_genWeights ar |}
                   (saved_generator ar))))
   /\ FFN.network (discriminator s')
      = FFN_ResetDeterministic
          (FFN.with_deterministic true
             (FFN.with_network
                (bind_weights (weights s' (discriminator s')) 0
                              (FFN.network (saved_discriminator ar)))
                (FFN.with_parameter
                   {| offset := saved_genWeights ar;
                      view_n_elem := saved_discWeights ar |}
                   (saved_discriminator ar))))
   /\ deterministic s' = true /\ modes_agree s'
   /\ untouched t s')
  /\ (saved_parameter (fst (serialize saving ar s)) = parameter s
      /\ saved_genWeights (fst (serialize saving ar s)) = genWeights s
      /\ saved_discWeights (fst (serialize saving ar s)) = discWeights s
      /\ saved_reset (fst (serialize saving ar s)) = reset s
      /\ snd (serialize saving ar s) = s)
  /\ ((forall v k l, snd (WeightSetVisitor v k l) = weightSizeVisitor l) ->
      forall w net,
        bind_weights w 0 net
        = map (fun q =>
                 resetVisitor (fst (WeightSetVisitor w (fst q) (snd q))))
              (combine (layer_offsets net) net)).
Proof.
  intros Len. split; [ | split ].
  - cbv zeta.
    repeat match goal with |- _ /\ _ => split end; try reflexivity.
    + unfold arena_layout.
      repeat match goal with |- _ /\ _ => split end; try reflexivity.
      * exact Len.
      * exact (two_views_cover _ _ _ Len).
    + unfold modes_agree. split; reflexivity.
    + unfold untouched. repeat split.
  - repeat split.
  - intros Size w net.
    change 0 with (SizeT.wrap 0) at 1.
    rewrite (bind_weights_from w net 0 Size). reflexivity.
Qed.

End Persisting.

(* ================================================================= *)
(** ** The metric on all sample sets *)

Section MetricLaws.

Import Arma FrechetDistance.
Open Scope R_scope.

Lemma nth_zip {X Y Z : Type} (f : X -> Y -> Z) (u : list X) (v : list Y)
    (j : nat) (dx : X) (dy : Y) (dz : Z) :
  (j < length u)%nat -> (j < length v)%nat ->
  nth j (map (fun q => f (fst q) (snd q)) (combine u v)) dz
  = f (nth j u dx) (nth j v dy).
Proof.
  revert v j; induction u as [|x u IH]; intros [|y v] [|j] Hu Hv;
    simpl in *; try lia; auto.
  apply IH; lia.
Qed.

Lemma nth_map_in {X Y : Type} (f : X -> Y) (l : list X) (j : nat)
    (dx : X) (dy : Y) :
  (j < length l)%nat -> nth j (map f l) dy = f (nth j l dx).
Proof.
  intros H. rewrite (nth_indep _ dy (f dx)) by (now rewrite length_map).
  apply map_nth.
Qed.

Lemma length_zip {X Y Z : Type} (f : X * Y -> Z) (u : list X) (v : list Y) :
  length (map f (combine u v)) = Nat.min (length u) (length v).
Proof. now rewrite length_map, length_combine. Qed.

Lemma diag_nth (m : mat) :
  diag m = map (fun j => nth j (nth j m []) 0) (seq 0 (n_cols m)).
Proof.
  unfold diag, n_cols.
  enough (G : forall a (pre : mat),
             length pre = a ->
             map (fun p => nth (fst p) (snd p) 0)
                 (combine (seq a (length m)) m)
             = map (fun j => nth j (nth j (pre ++ m) []) 0)
                   (seq a (length m))).
  { exact (G 0%nat [] eq_refl). }
  induction m as [|c m IH]; intros a pre Hpre; simpl; [ reflexivity | ].
  f_equal.
  - rewrite app_nth2 by lia. now rewrite Hpre, Nat.sub_diag.
  - specialize (IH (S a) (pre ++ [c])).
    rewrite <- app_assoc in IH. simpl in IH. apply IH.
    rewrite length_app. simpl. lia.
Qed.

Lemma Rsum_nonpos (l : list R) :
  Forall (fun x => x <= 0) l -> Rsum l <= 0.
Proof.
  induction 1 as [|x l Hx _ IH]; simpl; lra.
Qed.

Lemma dot_self_nonneg (r : list R) : 0 <= dot r r.
Proof.
  unfold dot. induction r as [|x r IH]; simpl; [ lra | ].
  pose proof (Rle_0_sqr x) as S. unfold Rsqr in S. lra.
Qed.

(** A square is at most the sum of the squares it is one of. *)
Lemma sqr_le_dot_self (r : list R) (j : nat) :
  nth j r 0 * nth j r 0 <= dot r r.
Proof.
  revert j; induction r as [|x r IH]; intros [|j]; simpl.
  - unfold dot; simpl; lra.
  - unfold dot; simpl; lra.
  - pose proof (dot_self_nonneg r). unfold dot in *; simpl. lra.
  - specialize (IH j). pose proof (Rle_0_sqr x) as S. unfold Rsqr in S.
    unfold dot in *; simpl. lra.
Qed.

Lemma le_sqrt_dot_self (r : list R) (j : nat) :
  nth j r 0 <= sqrt (dot r r).
Proof.
  set (x := nth j r 0).
  apply Rle_trans with (Rabs x); [ apply Rle_abs | ].
  rewrite <- sqrt_Rsqr_abs. apply sqrt_le_1.
  - apply Rle_0_sqr.
  - apply dot_self_nonneg.
  - unfold Rsqr. apply sqr_le_dot_self.
Qed.

Lemma rows_nth (m : mat) (j : nat) :
  (j < n_rows m)%nat -> nth j (rows m) [] = row j m.
Proof.
  intros H. unfold rows.
  rewrite (nth_map_in _ _ j 0%nat []) by (now rewrite length_seq).
  now rewrite seq_nth.
Qed.

Lemma row_nth (m : mat) (j k : nat) :
  (k < length m)%nat -> nth k (row j m) 0 = nth j (nth k m []) 0.
Proof.
  intros H. unfold row. now rewrite (nth_map_in _ _ k [] 0).
Qed.

(** On the diagonal, [c + c - 2 * sqrt (c * trans c)] taken element by
    element has no positive entry: entry [j] is twice [c j j] minus twice the
    Euclidean norm of row [j], and the norm of a row is at least each of its
    entries. *)
Lemma self_term_entry (c : mat) (j : nat) :
  nth j (nth j (msub (madd c c) (mscale 2 (sqrt_elem (mmul c (trans c)))))
               []) 0 <= 0.
Proof.
  set (A := madd c c).
  set (B := mscale 2 (sqrt_elem (mmul c (trans c)))).
  destruct (Nat.lt_ge_cases j (length (msub A B))) as [Hj|Hj];
    [ | rewrite (nth_overflow (msub A B)) by exact Hj;
        destruct j; simpl; lra ].
  unfold msub in Hj. rewrite length_zip in Hj.
  assert (HA : (j < length A)%nat) by lia.
  assert (HB : (j < length B)%nat) by lia.
  unfold msub.
  rewrite (nth_zip (fun a b => map (fun q => fst q - snd q) (combine a b))
             A B j [] [] []) by assumption.
  set (Aj := nth j A []). set (Bj := nth j B []).
  destruct (Nat.lt_ge_cases j
              (length (map (fun q => fst q - snd q) (combine Aj Bj))))
    as [Hjj|Hjj]; [ | rewrite nth_overflow by exact Hjj; lra ].
  rewrite length_zip in Hjj.
  rewrite (nth_zip Rminus Aj Bj j 0 0 0) by lia.
  (* the entry of [c + c] *)
  assert (Hc : (j < length c)%nat).
  { unfold A, madd in HA. rewrite length_zip in HA. lia. }
  assert (EA : Aj = map (fun q => fst q + snd q)
                      (combine (nth j c []) (nth j c []))).
  { unfold Aj, A, madd.
    exact (nth_zip (fun a b => map (fun q => fst q + snd q) (combine a b))
             c c j [] [] [] Hc Hc). }
  assert (Hcj : (j < length (nth j c []))%nat).
  { rewrite EA, length_zip in Hjj. lia. }
  rewrite EA. rewrite (nth_zip Rplus _ _ j 0 0 0) by assumption.
  (* the entry of the element-wise root of the row products *)
  assert (Hr : (j < length (rows c))%nat).
  { unfold B, mscale, sqrt_elem, mmul, trans in HB.
    now rewrite !length_map in HB. }
  assert (Hn : (j < n_rows c)%nat).
  { unfold rows in Hr. now rewrite length_map, length_seq in Hr. }
  unfold Bj, B, mscale, sqrt_elem, mmul, trans.
  rewrite (nth_map_in (map (Rmult 2)) _ j [] [])
    by (now rewrite !length_map).
  rewrite (nth_map_in (map sqrt) _ j [] []) by (now rewrite length_map).
  rewrite (nth_map_in (fun bc => map (fun ar => dot ar bc) (rows c))
             _ j [] []) by exact Hr.
  rewrite (nth_map_in (Rmult 2) _ j 0 0) by (now rewrite !length_map).
  rewrite (nth_map_in sqrt _ j 0 0) by (now rewrite length_map).
  rewrite (nth_map_in (fun ar => dot ar (nth j (rows c) [])) _ j [] 0)
    by exact Hr.
  rewrite rows_nth by exact Hn.
  pose proof (le_sqrt_dot_self (row j c) j) as Hle.
  rewrite row_nth in Hle by exact Hc. lra.
Qed.

Lemma self_term_nonpos (c : mat) :
  trace (msub (madd c c) (mscale 2 (sqrt_elem (mmul c (trans c))))) <= 0.
Proof.
  unfold trace. rewrite diag_nth. apply Rsum_nonpos.
  apply Forall_map, Forall_forall. intros j _. apply self_term_entry.
Qed.

Lemma norm2_self_difference (u : list R) :
  norm2 (map (fun q => fst q - snd q) (combine u u)) = 0.
Proof.
  unfold norm2.
  enough (E : Rsum (map (fun x => x * x)
                      (map (fun q => fst q - snd q) (combine u u))) = 0)
    by (rewrite E; apply sqrt_0).
  induction u as [|x u IH]; simpl; [ reflexivity | ].
  rewrite IH. lra.
Qed.

(** X17.  The value [Evaluate] gives for a sample set against itself
    is never positive, whatever the samples: the mean term is 0, and entry
    [j] of the diagonal under the trace is twice [c j j] minus twice the
    Euclidean norm of row [j] of the covariance [c]. *)
Theorem FrechetDistance_self_nonpositive (x : mat) :
  Evaluate x x <= 0.
Proof.
  unfold Evaluate.
  pose proof (self_term_nonpos (cov (trans x))) as H.
  cbv zeta.
  rewrite norm2_self_difference. lra.
Qed.
















Lemma norm_val_pos (n : nat) : 0 < norm_val n.
Proof.
  unfold norm_val. destruct (Nat.ltb_spec 1 n) as [H|H]; [ | lra ].
  apply lt_0_INR. lia.
Qed.

Lemma Rsum_squares_nonneg (f : R -> R) (l : list R) :
  0 <= Rsum (map (fun x => f x * f x) l).
Proof.
  induction l as [|x l IH]; simpl; [ lra | ].
  pose proof (Rle_0_sqr (f x)) as S. unfold Rsqr in S. lra.
Qed.

Lemma var_nonneg (v : list R) : 0 <= var v.
Proof.
  unfold var. cbv zeta.
  apply Rmult_le_pos.
  - apply (Rsum_squares_nonneg
             (fun x => x - Rsum v / INR (length v))).
  - left. apply Rinv_0_lt_compat, norm_val_pos.
Qed.

(** The covariance of samples of dimension 1 is a variance. *)
Lemma cov_one_dimension (p : mat) :
  n_rows p = 1%nat -> exists v, 0 <= v /\ cov (trans p) = [[v]].
Proof.
  intros H. unfold trans, rows. rewrite H. cbn [seq map].
  unfold cov.
  destruct (Nat.eqb (n_rows [row 0 p]) 1);
    [ eexists; split; [ apply var_nonneg | reflexivity ] | ].
  cbn [n_cols length Nat.eqb].
  eexists; split; [ apply var_nonneg | reflexivity ].
Qed.

(** X19.  On samples of dimension 1 the covariances are numbers, the
    square root of every element is the square root of the matrix, and
    [Evaluate] gives the value of the documented formula with a true
    matrix square root; on a sample set against itself it gives 0. *)
Theorem FrechetDistance_one_dimension (p pw : mat) :
  n_rows p = 1%nat -> n_rows pw = 1%nat ->
  is_sqrtm (sqrt_elem (mmul (cov (trans p)) (trans (cov (trans pw)))))
           (mmul (cov (trans p)) (trans (cov (trans pw))))
  /\ Evaluate p pw
     = Evaluate_spec
         (sqrt_elem (mmul (cov (trans p)) (trans (cov (trans pw))))) p pw
  /\ Evaluate p p = 0.
Proof.
  intros Hp Hw.
  destruct (cov_one_dimension p Hp) as (v & Hv & Ev).
  destruct (cov_one_dimension pw Hw) as (w & Hw0 & Ew).
  split; [ | split ].
  - rewrite Ev, Ew.
    cbv [is_sqrtm sqrt_elem mmul trans rows row n_rows n_cols hd length seq
         map nth dot combine fst snd Rsum fold_right].
    repeat split; [ repeat constructor | ].
    do 2 f_equal. rewrite Rplus_0_r, sqrt_sqrt; [ reflexivity | ].
    rewrite Rplus_0_r. now apply Rmult_le_pos.
  - reflexivity.
  - unfold Evaluate. cbv zeta. rewrite norm2_self_difference, Ev.
    cbv [trace diag msub madd mscale sqrt_elem mmul trans rows row n_rows
         n_cols hd length seq map nth dot combine fst snd Rsum fold_right].
    rewrite !Rplus_0_r, sqrt_square by exact Hv. lra.
Qed.

End MetricLaws.

(* ================================================================= *)
(** ** The further theorems on the small concrete engine *)

Section FurtherRuns.

Import Arma Toy ToyStore.
Open Scope N_scope.

Lemma evaluation_runs :
  Evaluate [] 0 0 (loaded 1 0)
  = Some (fst (evaluated (loaded 1 0)), snd (evaluated (loaded 1 0))).
Proof. vm_compute. reflexivity. Qed.

Lemma prediction_runs :
  Predict [[5%R]] (loaded 1 0)
  = Some (fst (predicted (loaded 1 0)), snd (predicted (loaded 1 0))).
Proof. vm_compute. reflexivity. Qed.

(** The engine with [generatorUpdateStep = 0] is loaded as any other. *)
Lemma zero_update_step_loads :
  ResetData trainData 1%R 0%R (fresh 0 0) = Some (loaded 0 0).
Proof. vm_compute. reflexivity. Qed.

Lemma EvaluateWithGradient_faults_on_zero_update_step_witness :
  EvaluateWithGradient [] 0 [] 0 (loaded 0 0) = None.
Proof.
  apply (EvaluateWithGradient_faults_on_zero_update_step
           [] 0 [] 0 (loaded 0 0)).
  vm_compute. reflexivity.
Defined.

Lemma zero_batchSize_faults_witness :
  EvaluateWithGradient [] 0 [] 0 unbatched = None
  /\ Evaluate [] 0 0 unbatched = None.
Proof.
  apply (zero_batchSize_faults [] 0 [] 0 unbatched).
  vm_compute. reflexivity.
Defined.

Lemma calls_fault_without_data_witness :
  EvaluateWithGradient [] 0 [] 0 (fresh 1 0) = None
  /\ Evaluate [] 0 0 (fresh 1 0) = None
  /\ Shuffle (fresh 1 0) = None.
Proof.
  apply (calls_fault_without_data [] 0 [] 0 (fresh 1 0)).
  reflexivity.
Defined.

Lemma ResetData_faults_on_empty_data_witness :
  ResetData [] 1%R 0%R (fresh 1 0) = None.
Proof.
  apply (ResetData_faults_on_empty_data [] 1%R 0%R (fresh 1 0)).
  reflexivity.
Defined.

Lemma ResetData_fuses_the_data_witness :
  numFunctions (loaded 2 1) = N.of_nat (n_cols trainData)
  /\ 1 <= numFunctions (loaded 2 1)
  /\ realColumns (loaded 2 1) = trainData
  /\ responses (loaded 2 1)
     = filled 1 (n_cols trainData) 1%R
       ++ filled 1 (N.to_nat (batchSize (fresh 2 1))) 0%R
  /\ fused_layout (loaded 2 1)
  /\ batchSize (loaded 2 1) = batchSize (fresh 2 1)
  /\ realLabel (loaded 2 1) = 1%R /\ fakeLabel (loaded 2 1) = 0%R
  /\ currentBatch (loaded 2 1) = 0
  /\ preTrainSize (loaded 2 1) = preTrainSize (fresh 2 1)
  /\ deterministic (loaded 2 1) = true /\ modes_agree (loaded 2 1)
  /\ FFN.predictors (discriminator (loaded 2 1)) = FFN.engine_predictors
  /\ FFN.responses (discriminator (loaded 2 1)) = FFN.engine_responses.
Proof.
  apply (ResetData_fuses_the_data trainData 1%R 0%R (fresh 2 1)).
  - vm_compute. discriminate.
  - vm_compute. reflexivity.
Defined.

Lemma EvaluateWithGradient_keeps_training_data_witness :
  realColumns (engineAfter (loaded 1 0)) = realColumns (loaded 1 0)
  /\ realLabels (engineAfter (loaded 1 0)) = realLabels (loaded 1 0)
  /\ n_cols (predictors (engineAfter (loaded 1 0)))
     = n_cols (predictors (loaded 1 0))
  /\ n_cols (responses (engineAfter (loaded 1 0)))
     = n_cols (responses (loaded 1 0))
  /\ numFunctions (engineAfter (loaded 1 0)) = numFunctions (loaded 1 0)
  /\ batchSize (engineAfter (loaded 1 0)) = batchSize (loaded 1 0)
  /\ (fused_layout (loaded 1 0) -> fused_layout (engineAfter (loaded 1 0))).
Proof.
  apply (EvaluateWithGradient_keeps_training_data
           [] 0 [] 0 (loaded 1 0) (lossAfter (loaded 1 0))
           (gradientAfter (loaded 1 0))).
  vm_compute. reflexivity.
Defined.

Lemma Evaluate_keeps_training_data_witness :
  realColumns (snd (evaluated (loaded 1 0))) = realColumns (loaded 1 0)
  /\ realLabels (snd (evaluated (loaded 1 0))) = realLabels (loaded 1 0)
  /\ n_cols (predictors (snd (evaluated (loaded 1 0))))
     = n_cols (predictors (loaded 1 0))
  /\ n_cols (responses (snd (evaluated (loaded 1 0))))
     = n_cols (responses (loaded 1 0))
  /\ numFunctions (snd (evaluated (loaded 1 0))) = numFunctions (loaded 1 0)
  /\ batchSize (snd (evaluated (loaded 1 0))) = batchSize (loaded 1 0)
  /\ (fused_layout (loaded 1 0)
      -> fused_layout (snd (evaluated (loaded 1 0))))
  /\ (arena_layout (loaded 1 0) \/ parameter (loaded 1 0) = []
      -> arena_layout (snd (evaluated (loaded 1 0))))
  /\ (parameter (loaded 1 0) <> []
      -> arena_kept (loaded 1 0) (snd (evaluated (loaded 1 0)))).
Proof.
  apply (Evaluate_keeps_training_data
           [] 0 0 (loaded 1 0) (fst (evaluated (loaded 1 0)))).
  vm_compute. reflexivity.
Defined.

Lemma EvaluateWithGradient_sizes_the_gradient_witness :
  length (gradientAfter (loaded 1 0))
  = (if is_empty (@nil R)
     then length (parameter (engineAfter (loaded 1 0)))
     else length (@nil R)).
Proof.
  apply (EvaluateWithGradient_sizes_the_gradient
           [] 0 [] 0 (loaded 1 0) (lossAfter (loaded 1 0))).
  vm_compute. reflexivity.
Defined.

Lemma EvaluateWithGradient_keeps_the_arena_witness :
  (arena_layout (loaded 1 0) \/ parameter (loaded 1 0) = []
   -> arena_layout (engineAfter (loaded 1 0)))
  /\ (parameter (loaded 1 0) <> []
      -> arena_kept (loaded 1 0) (engineAfter (loaded 1 0))).
Proof.
  apply (EvaluateWithGradient_keeps_the_arena
           [] 0 [] 0 (loaded 1 0) (lossAfter (loaded 1 0))
           (gradientAfter (loaded 1 0))).
  vm_compute. reflexivity.
Defined.

Lemma EvaluateWithGradient_leaves_training_mode_witness :
  deterministic (engineAfter (loaded 1 0)) = false
  /\ (modes_agree (loaded 1 0) -> modes_agree (engineAfter (loaded 1 0))).
Proof.
  apply (EvaluateWithGradient_leaves_training_mode
           [] 0 [] 0 (loaded 1 0) (lossAfter (loaded 1 0))
           (gradientAfter (loaded 1 0))).
  vm_compute. reflexivity.
Defined.

Lemma Evaluate_leaves_inference_mode_witness :
  deterministic (snd (evaluated (engineAfter (loaded 1 0)))) = true
  /\ (modes_agree (engineAfter (loaded 1 0))
      -> modes_agree (snd (evaluated (engineAfter (loaded 1 0))))).
Proof.
  apply (Evaluate_leaves_inference_mode
           [] 0 0 (engineAfter (loaded 1 0))
           (fst (evaluated (engineAfter (loaded 1 0))))).
  vm_compute. reflexivity.
Defined.

Lemma EvaluateWithGradient_run_gate_witness :
  generatorUpdateStep
    (force (loaded 2 1) (EvaluateWithGradient_run twoCalls (loaded 2 1)))
  = generatorUpdateStep (loaded 2 1)
  /\ gate (force (loaded 2 1)
                 (EvaluateWithGradient_run twoCalls (loaded 2 1)))
     = ((currentBatch (loaded 2 1) + N.of_nat (length twoCalls))
          mod generatorUpdateStep (loaded 2 1) =? 0)
       && (preTrainSize (loaded 2 1) <=? N.of_nat (length twoCalls)).
Proof.
  apply (EvaluateWithGradient_run_gate twoCalls (loaded 2 1)).
  - vm_compute. discriminate.
  - vm_compute. reflexivity.
Defined.

(** The layers of the small engine put out what they are given: the
    prediction on the input 5 is 5. *)
Lemma Predict_keeps_training_state_witness :
  ((exists s0 t gnet gback dnet dback,
      Reset_if_empty (loaded 1 0) = Some s0
      /\ Reset_if_empty (inferenceMode s0) = Some t
      /\ FFN_Forward (generator t) (weights t (generator t)) [[5%R]]
         = Some gnet
      /\ back gnet = Some gback
      /\ FFN_Forward (discriminator t) (weights t (discriminator t))
                     (outputParameterVisitor gback)
         = Some dnet
      /\ back dnet = Some dback
      /\ fst (predicted (loaded 1 0)) = outputParameterVisitor dback
      /\ snd (predicted (loaded 1 0))
         = with_discriminator (FFN.with_network dnet (discriminator t))
             (with_generator (FFN.with_network gnet (generator t)) t))
   /\ untouched (loaded 1 0) (snd (predicted (loaded 1 0)))
   /\ deterministic (snd (predicted (loaded 1 0))) = true
   /\ (modes_agree (loaded 1 0)
       -> modes_agree (snd (predicted (loaded 1 0))))
   /\ (arena_layout (loaded 1 0) \/ parameter (loaded 1 0) = []
       -> arena_layout (snd (predicted (loaded 1 0))))
   /\ (parameter (loaded 1 0) <> []
       -> arena_kept (loaded 1 0) (snd (predicted (loaded 1 0)))))
  /\ fst (predicted (loaded 1 0)) = [[5%R]].
Proof.
  split.
  - apply (Predict_keeps_training_state [[5%R]] (loaded 1 0)).
    vm_compute. reflexivity.
  - vm_compute. reflexivity.
Defined.

Lemma Shuffle_writes_predictors_only_witness :
  untouched (with_predictors (predictors (shuffled (loaded 1 0)))
               (loaded 1 0)) (shuffled (loaded 1 0))
  /\ n_cols (predictors (shuffled (loaded 1 0)))
     = n_cols (predictors (loaded 1 0))
  /\ arena_kept (loaded 1 0) (shuffled (loaded 1 0))
  /\ modes_kept (loaded 1 0) (shuffled (loaded 1 0))
  /\ (fused_layout (loaded 1 0) -> fused_layout (shuffled (loaded 1 0)))
  /\ (arena_layout (loaded 1 0) -> arena_layout (shuffled (loaded 1 0))).
Proof.
  apply (Shuffle_writes_predictors_only (loaded 1 0)).
  vm_compute. reflexivity.
Defined.

(** The archive of the loaded engine holds the two sub-models without
    their views; loaded into a fresh engine, it gives the buffer [0; 1]
    with the generator on entry 0 and the discriminator on entry 1. *)
Lemma serialize_loading_lays_out_the_arena_witness :
  ((let s' := restored (loaded 2 1) (fresh 1 0) in
    parameter s' = saved_parameter (archived (loaded 2 1))
    /\ genWeights s' = saved_genWeights (archived (loaded 2 1))
    /\ discWeights s' = saved_discWeights (archived (loaded 2 1))
    /\ reset s' = saved_reset (archived (loaded 2 1))
    /\ arena_layout s'
    /\ FFN.network (generator s')
       = FFN_ResetDeterministic
           (FFN.with_deterministic true
              (FFN.with_network
                 (bind_weights
                    (weights s' (generator s')) 0
                    (FFN.network
                       (saved_generator (archived (loaded 2 1)))))
                 (FFN.with_parameter
                    {| offset := 0;
                       view_n_elem :=
                         saved_genWeights (archived (loaded 2 1)) |}
                    (saved_generator (archived (loaded 2 1))))))
    /\ FFN.network (discriminator s')
       = FFN_ResetDeterministic
           (FFN.with_deterministic true
              (FFN.with_network
                 (bind_weights
                    (weights s' (discriminator s')) 0
                    (FFN.network
                       (saved_discriminator (archived (loaded 2 1)))))
                 (FFN.with_parameter
                    {| offset := saved_genWeights (archived (loaded 2 1));
                       view_n_elem :=
                         saved_discWeights (archived (loaded 2 1)) |}
                    (saved_discriminator (archived (loaded 2 1))))))
    /\ deterministic s' = true /\ modes_agree s'
    /\ untouched (fresh 1 0) s')
   /\ (saved_parameter (fst (serialize saving (archived (loaded 2 1))
                                       (loaded 2 1)))
       = parameter (loaded 2 1)
       /\ saved_genWeights (fst (serialize saving (archived (loaded 2 1))
                                           (loaded 2 1)))
          = genWeights (loaded 2 1)
       /\ saved_discWeights (fst (serialize saving (archived (loaded 2 1))
                                            (loaded 2 1)))
          = discWeights (loaded 2 1)
       /\ saved_reset (fst (serialize saving (archived (loaded 2 1))
                                      (loaded 2 1)))
          = reset (loaded 2 1)
       /\ snd (serialize saving (archived (loaded 2 1)) (loaded 2 1))
          = loaded 2 1)
   /\ ((forall v k l, snd (WeightSetVisitor v k l) = weightSizeVisitor l) ->
       forall w net,
         bind_weights w 0 net
         = map (fun q =>
                  resetVisitor (fst (WeightSetVisitor w (fst q) (snd q))))
               (combine (layer_offsets net) net)))
  /\ FFN.parameter (saved_generator (archived (loaded 2 1))) = empty_view
  /\ FFN.parameter (saved_discriminator (archived (loaded 2 1)))
     = empty_view
  /\ parameter (restored (loaded 2 1) (fresh 1 0)) = [0%R; 1%R]
  /\ weights (restored (loaded 2 1) (fresh 1 0))
             (generator (restored (loaded 2 1) (fresh 1 0))) = [0%R]
  /\ weights (restored (loaded 2 1) (fresh 1 0))
             (discriminator (restored (loaded 2 1) (fresh 1 0))) = [1%R].
Proof.
  split.
  - apply (serialize_loading_lays_out_the_arena
             (archived (loaded 2 1)) (loaded 2 1) (fresh 1 0)).
    vm_compute. reflexivity.
  - repeat split; vm_compute; reflexivity.
Defined.

End FurtherRuns.

Section FurtherMetricRuns.

Import Arma FrechetDistance.
Open Scope R_scope.




(** Three and two samples of dimension 1. *)
Lemma FrechetDistance_one_dimension_witness :
  is_sqrtm
    (sqrt_elem (mmul (cov (trans [[1]; [2]; [4]]))
                     (trans (cov (trans [[0]; [3]])))))
    (mmul (cov (trans [[1]; [2]; [4]])) (trans (cov (trans [[0]; [3]]))))
  /\ Evaluate [[1]; [2]; [4]] [[0]; [3]]
     = Evaluate_spec
         (sqrt_elem (mmul (cov (trans [[1]; [2]; [4]]))
                          (trans (cov (trans [[0]; [3]])))))
         [[1]; [2]; [4]] [[0]; [3]]
  /\ Evaluate [[1]; [2]; [4]] [[1]; [2]; [4]] = 0.
Proof.
  apply (FrechetDistance_one_dimension [[1]; [2]; [4]] [[0]; [3]]).
  - reflexivity.
  - reflexivity.
Defined.

End FurtherMetricRuns.
